(** * Vixert file converter: the command-line converter of [public/converter.py]

    A shallow embedding of the converter script and the properties its
    specification states about it.

    The script is a thin layer over four third-party libraries (pdf2image,
    Pillow, python-docx, fpdf) and the [os.path] module.  What the script itself
    decides is modelled as written: the existence check, the chain of
    comparisons on the lower-cased format, the paths and format names handed to
    the libraries, the [try]/[except] blocks, the loop over the pages.  What the
    libraries decide (whether a file parses, what the pages are, whether
    encoding or writing fails) is a parameter, the record [Library]. *)

From Stdlib Require Import Ascii String ZArith Lia.
From stdpp Require Import base option list strings pretty gmap.

Local Open Scope Z_scope.

(** ** Strings: [str.lower], [str.upper], [str(int)] *)

Module Str.

(** [str.lower] and [str.upper] on the ASCII letters; the other bytes of the
    string are left as they are. *)
Definition lower_char (c : ascii) : ascii :=
  let n := nat_of_ascii c in
  if (Nat.leb 65 n && Nat.leb n 90)%bool then ascii_of_nat (n + 32) else c.

Definition upper_char (c : ascii) : ascii :=
  let n := nat_of_ascii c in
  if (Nat.leb 97 n && Nat.leb n 122)%bool then ascii_of_nat (n - 32) else c.

Fixpoint map_chars (f : ascii → ascii) (s : string) : string :=
  match s with
  | EmptyString => EmptyString
  | String c s' => String (f c) (map_chars f s')
  end.

Definition lower : string → string := map_chars lower_char.
Definition upper : string → string := map_chars upper_char.

(** [str(n)] for a non-negative integer: its decimal digits. *)
Definition of_nat (n : nat) : string := pretty n.

(** [s[:n]] and [s[n:]] for [0 <= n]. *)
Fixpoint take (n : nat) (s : string) : string :=
  match n, s with
  | O, _ => EmptyString
  | S _, EmptyString => EmptyString
  | S n', String c s' => String c (take n' s')
  end.

Fixpoint drop (n : nat) (s : string) : string :=
  match n, s with
  | O, _ => s
  | S _, EmptyString => EmptyString
  | S n', String _ s' => drop n' s'
  end.

(** [s.rfind(c)]: the highest index of [c] in [s], or [-1]. *)
Fixpoint rfind (c : ascii) (s : string) : Z :=
  match s with
  | EmptyString => -1
  | String a s' =>
      let r := rfind c s' in
      if 0 <=? r then r + 1 else if Ascii.eqb a c then 0 else -1
  end.

(** [s[i:i+1]], the empty string when [i] is out of range. *)
Definition char_at (i : nat) (s : string) : string := take 1 (drop i s).

(** [s.startswith(c)] and [s.endswith(c)] for a one-character [c]. *)
Definition startswith (c : ascii) (s : string) : bool :=
  match s with
  | String a _ => Ascii.eqb a c
  | EmptyString => false
  end.

Fixpoint endswith (c : ascii) (s : string) : bool :=
  match s with
  | EmptyString => false
  | String a EmptyString => Ascii.eqb a c
  | String _ s' => endswith c s'
  end.

(** [c in s]. *)
Fixpoint contains (c : ascii) (s : string) : bool :=
  match s with
  | EmptyString => false
  | String a s' => (Ascii.eqb a c || contains c s')%bool
  end.

(** [s.rstrip(c)]. *)
Fixpoint rstrip (c : ascii) (s : string) : string :=
  match s with
  | EmptyString => EmptyString
  | String a s' =>
      match rstrip c s' with
      | EmptyString => if Ascii.eqb a c then EmptyString else String a EmptyString
      | r => String a r
      end
  end.

(** [s == c * len(s)]. *)
Fixpoint all_chars (c : ascii) (s : string) : bool :=
  match s with
  | EmptyString => true
  | String a s' => (Ascii.eqb a c && all_chars c s')%bool
  end.

End Str.

(** ** [os.path], POSIX flavour *)

Module Posixpath.

Definition sep : ascii := "/"%char.
Definition extsep : ascii := "."%char.

(** [os.path.join(a, b)]: an absolute [b] replaces [a]; otherwise [b] is
    appended, after a separator unless [a] is empty or ends with one. *)
Definition join (a b : string) : string :=
  if Str.startswith sep b then b
  else if (bool_decide (a = "") || Str.endswith sep a)%bool then a +:+ b
  else a +:+ String sep b.

(** The loop of [splitext]: is some character of [p] at an index in
    [filenameIndex, filenameIndex + n) not a dot? *)
Fixpoint has_non_dot (p : string) (filenameIndex n : nat) : bool :=
  match n with
  | O => false
  | S n' =>
      if bool_decide (Str.char_at filenameIndex p ≠ String extsep "") then true
      else has_non_dot p (S filenameIndex) n'
  end.

(** [os.path.splitext(p)]: the extension starts at the last dot of the last
    path component, unless only dots come before it in that component. *)
Definition splitext (p : string) : string * string :=
  let sepIndex := Str.rfind sep p in
  let dotIndex := Str.rfind extsep p in
  if (sepIndex <? dotIndex)
     && has_non_dot p (Z.to_nat (sepIndex + 1)) (Z.to_nat (dotIndex - (sepIndex + 1)))
  then (Str.take (Z.to_nat dotIndex) p, Str.drop (Z.to_nat dotIndex) p)
  else (p, "").

(** [os.path.dirname(p)]. *)
Definition dirname (p : string) : string :=
  let i := Str.rfind sep p + 1 in
  let head := Str.take (Z.to_nat i) p in
  if (negb (bool_decide (head = "")) && negb (Str.all_chars sep head))%bool
  then Str.rstrip sep head
  else head.

(** [os.path.basename(p)]. *)
Definition basename (p : string) : string :=
  let i := Str.rfind sep p + 1 in
  Str.drop (Z.to_nat i) p.

End Posixpath.

(** ** Values handled by the libraries *)

(** A decoded raster image (a page of a PDF, or an opened image file). *)
Inductive image := Raster (width height : N) (pixels : list N).

(** A [docx] document as the script reads it: [doc.paragraphs], each with its
    [text]. *)
Record paragraph := { text : string }.
Record document := { paragraphs : list paragraph }.

(** One [multi_cell] call recorded on the PDF object. *)
Record text_cell := {
  cell_family : string;
  cell_size : Z;
  cell_w : Z;
  cell_h : Z;
  cell_txt : string
}.

(** The [FPDF] object: the settings the script touches, the number of pages
    and the text cells laid out so far. *)
Record FPDF := {
  auto_page_break : bool;
  b_margin : Z;
  page : nat;
  font_family : string;
  font_size_pt : Z;
  cells : list text_cell
}.

(** What a file holds. A file this tool wrote holds the value that was saved;
    any other file is opaque bytes. *)
Inductive file_data :=
| Opaque (bytes : string)
| ImageFile (format : string) (img : image)
| PdfFile (doc : FPDF).

(** An instance of [Exception]; [str(e)] is its message. *)
Inductive exn := Exception (msg : string).

Definition str_exn (e : exn) : string := match e with Exception msg => msg end.

Inductive result (A : Type) :=
| Ok (a : A)
| Raise (e : exn).
Arguments Ok {A} a.
Arguments Raise {A} e.

(** The four conversion routines of the script. *)
Inductive routine := PdfToImage | PdfToDocx | DocxToPdf | ImageToImage.

(** ** The libraries, as parameters *)

(** What the third-party calls answer. The reading calls see the files and
    either return a value or raise. For the writing calls the library decides
    whether the call raises; a call that does not raise writes the file it was
    asked to write. A call that raises may already have opened its target: the
    library also says what it leaves at that path ([Image_save_leaves],
    [output_leaves]): nothing, what was there before, a truncated file.
    [multi_cell_breaks] is the number of automatic page breaks the layout of
    one text cell causes. *)
Record Library := {
  convert_from_path : gmap string file_data → string → result (list image);
  Image_open : gmap string file_data → string → result image;
  Image_save_error : image → string → string → gmap string file_data → option exn;
  Image_save_leaves : image → string → string → gmap string file_data → option file_data;
  Document : gmap string file_data → string → result document;
  multi_cell_error : FPDF → string → option exn;
  multi_cell_breaks : FPDF → string → nat;
  output_error : FPDF → string → gmap string file_data → option exn;
  output_leaves : FPDF → string → gmap string file_data → option file_data
}.

(** ** The world and the monad of the script *)

(** [files]: the regular files, by path, a path being the string the script
    spells; two spellings of one file ([output.pdf] and [./output.pdf]) are two
    keys. [stdout]: what was printed so far, one entry per call of [print]; an
    entry is several lines of the terminal when its text holds newlines.
    [calls]: the conversion routines entered so far, oldest first; the script
    keeps no such log, it is there so that statements can say which routine
    ran. *)
Record world := {
  files : gmap string file_data;
  stdout : list string;
  calls : list routine
}.

Definition set_files (f : gmap string file_data → gmap string file_data) (w : world) : world :=
  {| files := f (files w); stdout := stdout w; calls := calls w |}.

Definition add_stdout (line : string) (w : world) : world :=
  {| files := files w; stdout := stdout w ++ [line]; calls := calls w |}.

Definition add_call (r : routine) (w : world) : world :=
  {| files := files w; stdout := stdout w; calls := calls w ++ [r] |}.

(** A computation: from a world to a result (a value or a raised exception)
    and the world it leaves. *)
Definition M (A : Type) : Type := world → result A * world.

Definition ret {A} (a : A) : M A := λ w, (Ok a, w).

Definition raise {A} (e : exn) : M A := λ w, (Raise e, w).

Definition bind {A B} (m : M A) (k : A → M B) : M B :=
  λ w, match m w with
       | (Ok a, w') => k a w'
       | (Raise e, w') => (Raise e, w')
       end.

(** [try: body  except Exception as e: handler e]. *)
Definition try_except {A} (body : M A) (handler : exn → M A) : M A :=
  λ w, match body w with
       | (Ok a, w') => (Ok a, w')
       | (Raise e, w') => handler e w'
       end.

Notation "'let*' x ':=' m 'in' k" := (bind m (λ x, k))
  (at level 10, x name, m at level 100, k at level 200, only parsing).
Notation "m ';;' k" := (bind m (λ _, k))
  (at level 100, k at level 200, right associativity, only parsing).

(** [for x in l: body x]. *)
Fixpoint for_each {A} (body : A → M unit) (l : list A) : M unit :=
  match l with
  | [] => ret tt
  | x :: l' => body x ;; for_each body l'
  end.

(** [enumerate(l)], counting from [start]. *)
Fixpoint enumerate_from {A} (start : nat) (l : list A) : list (nat * A) :=
  match l with
  | [] => []
  | x :: l' => (start, x) :: enumerate_from (S start) l'
  end.

Definition enumerate {A} (l : list A) : list (nat * A) := enumerate_from 0 l.

(** [print(line)]: one more entry of [stdout]. *)
Definition print (line : string) : M unit := λ w, (Ok tt, add_stdout line w).

(** Entering a routine (the log of [calls]). *)
Definition enter (r : routine) : M unit := λ w, (Ok tt, add_call r w).

(** [os.path.isfile(path)]. *)
Definition os_path_isfile (path : string) : M bool :=
  λ w, (Ok (bool_decide (is_Some (files w !! path))), w).

(** A library call that reads the files. *)
Definition reading {A} (f : gmap string file_data → result A) : M A :=
  λ w, (f (files w), w).

(** A library call that writes [data] at [path] unless it raises; when it
    raises, [path] holds what the library leaves there and the other files
    are as before. *)
Definition writing (err : gmap string file_data → option exn)
    (leaves : gmap string file_data → option file_data)
    (path : string) (data : file_data) : M unit :=
  λ w, match err (files w) with
       | Some e => (Raise e, set_files (λ fs, partial_alter (λ _, leaves fs) path fs) w)
       | None => (Ok tt, set_files (insert path data) w)
       end.

(** ** The script *)

Section Converter.

Variable L : Library.

(** The methods of the [FPDF] object that the script calls. *)

(** [FPDF()]: no page yet, automatic page break at 2 cm, no font chosen. *)
Definition FPDF_new : FPDF :=
  {| auto_page_break := true; b_margin := 20; page := 0;
     font_family := ""; font_size_pt := 12; cells := [] |}.

Definition set_auto_page_break (auto : bool) (margin : Z) (pdf : FPDF) : FPDF :=
  {| auto_page_break := auto; b_margin := margin; page := page pdf;
     font_family := font_family pdf; font_size_pt := font_size_pt pdf;
     cells := cells pdf |}.

Definition add_page (pdf : FPDF) : FPDF :=
  {| auto_page_break := auto_page_break pdf; b_margin := b_margin pdf;
     page := S (page pdf);
     font_family := font_family pdf; font_size_pt := font_size_pt pdf;
     cells := cells pdf |}.

Definition set_font (family : string) (size : Z) (pdf : FPDF) : FPDF :=
  {| auto_page_break := auto_page_break pdf; b_margin := b_margin pdf;
     page := page pdf;
     font_family := family; font_size_pt := size;
     cells := cells pdf |}.

(** [pdf.multi_cell(w, h, txt)]: lays the text out in the current font, adding
    pages when automatic page breaks are on; raises when the library says so. *)
Definition multi_cell (w h : Z) (txt : string) (pdf : FPDF) : M FPDF :=
  match multi_cell_error L pdf txt with
  | Some e => raise e
  | None =>
      ret {| auto_page_break := auto_page_break pdf; b_margin := b_margin pdf;
             page := (page pdf + if auto_page_break pdf then multi_cell_breaks L pdf txt else 0)%nat;
             font_family := font_family pdf; font_size_pt := font_size_pt pdf;
             cells := cells pdf ++
                      [ {| cell_family := font_family pdf; cell_size := font_size_pt pdf;
                           cell_w := w; cell_h := h; cell_txt := txt |} ] |}
  end.

(** [pdf.output(name)]. *)
Definition output (name : string) (pdf : FPDF) : M unit :=
  writing (output_error L pdf name) (output_leaves L pdf name) name (PdfFile pdf).

(** [image.save(fp, format)]. *)
Definition Image_save (img : image) (fp format : string) : M unit :=
  writing (Image_save_error L img fp format) (Image_save_leaves L img fp format)
    fp (ImageFile format img).

(** The name of the file of page [i] (counted from 0), line 12. *)
Definition page_file (output_dir output_format : string) (i : nat) : string :=
  Posixpath.join output_dir ("output_" +:+ Str.of_nat (i + 1) +:+ "." +:+ output_format).

Definition pdf_to_image (input_file output_dir output_format : string) : M unit :=
  enter PdfToImage ;;
  try_except
    (let* images := reading (λ fs, convert_from_path L fs input_file) in
     for_each
       (λ '(i, image),
          Image_save image (page_file output_dir output_format i) (Str.upper output_format))
       (enumerate images))
    (λ e, print ("Error converting PDF to image: " +:+ str_exn e)).

Definition pdf_to_docx (input_file output_file : string) : M unit :=
  enter PdfToDocx ;;
  print "PDF to DOCX conversion is not implemented yet.".

(** The loop of lines 26 to 28, threading the PDF object. *)
Fixpoint add_paragraphs (paras : list paragraph) (pdf : FPDF) : M FPDF :=
  match paras with
  | [] => ret pdf
  | para :: paras' =>
      let pdf := set_font "Arial" 12 pdf in
      let* pdf := multi_cell 0 10 (text para) pdf in
      add_paragraphs paras' pdf
  end.

Definition docx_to_pdf (input_file output_file : string) : M unit :=
  enter DocxToPdf ;;
  let* doc := reading (λ fs, Document L fs input_file) in
  let pdf := FPDF_new in
  let pdf := set_auto_page_break true 15 pdf in
  let pdf := add_page pdf in
  let* pdf := add_paragraphs (paragraphs doc) pdf in
  output output_file pdf.

(** The path of line 35. *)
Definition image_output_file (input_file output_format : string) : string :=
  fst (Posixpath.splitext input_file) +:+ "." +:+ output_format.

Definition image_to_image (input_file output_format : string) : M unit :=
  enter ImageToImage ;;
  try_except
    (let* img := reading (λ fs, Image_open L fs input_file) in
     let output_file := image_output_file input_file output_format in
     Image_save img output_file (Str.upper output_format))
    (λ e, print ("Error converting image: " +:+ str_exn e)).

(** The parsed command line: [--input], [--output_format], [--output_dir]. *)
Record Namespace := {
  input : string;
  output_format : string;
  output_dir : string
}.

(** [x in l] for a list of strings. *)
Definition str_in (x : string) (l : list string) : bool := existsb (String.eqb x) l.

Definition main (args : Namespace) : M unit :=
  let input_file := input args in
  let output_format := Str.lower (output_format args) in
  let output_dir := output_dir args in
  let* is_file := os_path_isfile input_file in
  if negb is_file then
    print "Error: Input file not found."
  else if (String.eqb output_format "jpg" || String.eqb output_format "png")%bool then
    pdf_to_image input_file output_dir output_format
  else if String.eqb output_format "docx" then
    pdf_to_docx input_file (Posixpath.join output_dir "output.docx")
  else if String.eqb output_format "pdf" then
    docx_to_pdf input_file (Posixpath.join output_dir "output.pdf")
  else if str_in output_format ["jpg"; "png"] then
    image_to_image input_file output_format
  else
    print "Error: Unsupported output format.".

(** Running the script once the command line is parsed ([process], further
    down, starts from the command line): [main()] at module level. The exit
    status is 0 when [main] returns and 1 when an exception leaves it (the
    interpreter then prints a traceback on the standard error stream, which is
    not part of the world). *)
Definition script (args : Namespace) (w : world) : Z * world :=
  match main args w with
  | (Ok _, w') => (0, w')
  | (Raise _, w') => (1, w')
  end.

(** *** The dispatch of lines 56 to 65 seen as a function *)

Inductive branch :=
| BPdfToImage | BPdfToDocx | BDocxToPdf | BImageToImage | BUnsupported.

(** Which branch the chain of tests selects for a (lower-cased) format. *)
Definition dispatch (output_format : string) : branch :=
  if (String.eqb output_format "jpg" || String.eqb output_format "png")%bool then BPdfToImage
  else if String.eqb output_format "docx" then BPdfToDocx
  else if String.eqb output_format "pdf" then BDocxToPdf
  else if str_in output_format ["jpg"; "png"] then BImageToImage
  else BUnsupported.

(** The body of each branch. *)
Definition run_branch (b : branch) (args : Namespace) : M unit :=
  let input_file := input args in
  let output_format := Str.lower (output_format args) in
  let output_dir := output_dir args in
  match b with
  | BPdfToImage => pdf_to_image input_file output_dir output_format
  | BPdfToDocx => pdf_to_docx input_file (Posixpath.join output_dir "output.docx")
  | BDocxToPdf => docx_to_pdf input_file (Posixpath.join output_dir "output.pdf")
  | BImageToImage => image_to_image input_file output_format
  | BUnsupported => print "Error: Unsupported output format."
  end.

(** The routine a branch enters, if any. *)
Definition branch_routine (b : branch) : option routine :=
  match b with
  | BPdfToImage => Some PdfToImage
  | BPdfToDocx => Some PdfToDocx
  | BDocxToPdf => Some DocxToPdf
  | BImageToImage => Some ImageToImage
  | BUnsupported => None
  end.

End Converter.

(** ** Shapes of computations used in the statements *)

(** [m] enters no routine: it leaves the log of [calls] as it found it. *)
Definition keeps_calls {A} (m : M A) : Prop := ∀ w, calls (m w).2 = calls w.

(** [m] returns normally whatever the world. *)
Definition returns {A} (m : M A) : Prop := ∀ w, ∃ a, (m w).1 = Ok a.

(** What one turn of the loop of [pdf_to_image] does to the files when the
    save does not fail: the page (index, image) goes to its file. *)
Definition save_page (output_dir output_format : string)
    (fs : gmap string file_data) (page : nat * image) : gmap string file_data :=
  <[page_file output_dir output_format page.1 :=
      ImageFile (Str.upper output_format) page.2]> fs.

(** ** A small library instance to run the script on

    Files hold opaque bytes. A PDF is [%PDF] followed by one character per
    page; a DOCX is [PK] followed by its text, one paragraph per word; an image
    is a file this tool saved. Images are saved under the format names [PNG]
    and [JPEG] only; another name is refused before the target is opened, so
    the refused save leaves the target as it was. *)

Module Demo.

Fixpoint pages_of (s : string) : list image :=
  match s with
  | EmptyString => []
  | String c s' => Raster 1 1 [N_of_ascii c] :: pages_of s'
  end.

Definition read_pdf (fs : gmap string file_data) (path : string) : result (list image) :=
  match fs !! path with
  | Some (Opaque (String "%" (String "P" (String "D" (String "F" rest))))) => Ok (pages_of rest)
  | _ => Raise (Exception "Unable to get page count.")
  end.

Definition open_image (fs : gmap string file_data) (path : string) : result image :=
  match fs !! path with
  | Some (ImageFile _ img) => Ok img
  | Some _ => Raise (Exception ("cannot identify image file " +:+ path))
  | None => Raise (Exception ("No such file or directory: " +:+ path))
  end.

Definition save_error (img : image) (fp format : string)
    (fs : gmap string file_data) : option exn :=
  if str_in format ["PNG"; "JPEG"] then None else Some (Exception format).

Definition read_docx (fs : gmap string file_data) (path : string) : result document :=
  match fs !! path with
  | Some (Opaque (String "P" (String "K" rest))) =>
      Ok {| paragraphs := (λ t, {| text := t |}) <$> String.words rest |}
  | _ => Raise (Exception ("Package not found at " +:+ path))
  end.

Definition library : Library :=
  {| convert_from_path := read_pdf;
     Image_open := open_image;
     Image_save_error := save_error;
     Image_save_leaves := λ _ fp _ fs, fs !! fp;
     Document := read_docx;
     multi_cell_error := λ _ _, None;
     multi_cell_breaks := λ _ txt, (String.length txt / 80)%nat;
     output_error := λ _ _ _, None;
     output_leaves := λ _ name fs, fs !! name |}.

(** Some input files: a PDF of three pages, a DOCX of two paragraphs, a text
    file, two images and a DOCX without text. *)
Definition some_files : gmap string file_data :=
  <["in/scan.pdf" := Opaque "%PDFabc"]>
    (<["in/letter.docx" := Opaque "PKhello world"]>
      (<["in/notes.txt" := Opaque "to do"]>
        (<["in/photo.png" := ImageFile "PNG" (Raster 1 1 [7%N])]>
          (<["in/pic.bmp" := ImageFile "BMP" (Raster 1 1 [9%N])]>
            (<["in/empty.docx" := Opaque "PK"]> ∅))))).

Definition start : world := {| files := some_files; stdout := []; calls := [] |}.

Definition args (i f d : string) : Namespace :=
  {| input := i; output_format := f; output_dir := d |}.

End Demo.

(** ** Further shapes of computations *)

(** [m] prints nothing. *)
Definition silent {A} (m : M A) : Prop := ∀ w, stdout (m w).2 = stdout w.

(** [m] calls [print] at most once; what it prints comes after what was
    printed before. *)
Definition prints_at_most_one {A} (m : M A) : Prop :=
  ∀ w, ∃ out, stdout (m w).2 = stdout w ++ out ∧ (length out ≤ 1)%nat.

(** The same command line with another [--output_format]. *)
Definition with_format (f : string) (args : Namespace) : Namespace :=
  {| input := input args; output_format := f; output_dir := output_dir args |}.

(** The same command line with another [--output_dir]. *)
Definition with_output_dir (d : string) (args : Namespace) : Namespace :=
  {| input := input args; output_format := output_format args; output_dir := d |}.

(** ** A library instance whose calls fail late

    As [Demo.library], except that the disk is full when the third page is
    saved in [out] (the target is then already open: a file that was there is
    left truncated, a new one is removed), and that the text cell of the word
    [world] cannot be laid out. *)

Module Faulty.

Definition save_error (img : image) (fp format : string)
    (fs : gmap string file_data) : option exn :=
  if String.eqb fp "out/output_3.png" then Some (Exception "No space left on device")
  else None.

Definition save_leaves (img : image) (fp format : string)
    (fs : gmap string file_data) : option file_data :=
  match fs !! fp with
  | Some _ => Some (Opaque "")
  | None => None
  end.

Definition cell_error (pdf : FPDF) (txt : string) : option exn :=
  if String.eqb txt "world" then Some (Exception "cannot encode the text") else None.

Definition library : Library :=
  {| convert_from_path := Demo.read_pdf;
     Image_open := Demo.open_image;
     Image_save_error := save_error;
     Image_save_leaves := save_leaves;
     Document := Demo.read_docx;
     multi_cell_error := cell_error;
     multi_cell_breaks := λ _ _, 0%nat;
     output_error := λ _ _ _, None;
     output_leaves := λ _ name fs, fs !! name |}.

End Faulty.

(** ** The command line

    Lines 41 to 46: the script declares its three arguments and lets
    [parse_args] read the command line. [parse_args] is the library's: it
    either returns the parsed arguments or ends the process ([SystemExit])
    with a status of its own, after printing (the help text goes to the
    standard output, the usage errors to the standard error stream). *)

Record argument := {
  arg_flag : string;
  arg_required : bool;
  arg_default : option string;
  arg_help : string
}.

Record ArgumentParser := {
  parser_description : string;
  parser_arguments : list argument
}.

(** Lines 41 to 44. *)
Definition parser : ArgumentParser :=
  {| parser_description := "File Converter CLI";
     parser_arguments :=
       [ {| arg_flag := "--input"; arg_required := true; arg_default := None;
            arg_help := "Input file path" |};
         {| arg_flag := "--output_format"; arg_required := true; arg_default := None;
            arg_help := "Output format (jpg, png, docx, pdf)" |};
         {| arg_flag := "--output_dir"; arg_required := false; arg_default := Some ".";
            arg_help := "Output directory (default: current directory)" |} ] |}.

Inductive parsed :=
| Parsed (args : Namespace)
| SystemExit (status : Z) (printed : list string).

Section CommandLine.

Variable L : Library.
Variable parse_args : ArgumentParser → list string → parsed.

(** The whole process, from the command line to the exit status: line 46,
    then [main] on the parsed arguments. *)
Definition process (argv : list string) (w : world) : Z * world :=
  match parse_args parser argv with
  | SystemExit status printed =>
      (status, {| files := files w; stdout := stdout w ++ printed; calls := calls w |})
  | Parsed args => script L args w
  end.

End CommandLine.

(** A small [parse_args] to run [process] on: flags come in pairs
    [--flag value], a missing required flag is a usage error (status 2), a
    missing optional one takes its default, [-h] prints the description and
    ends with status 0. *)

Module DemoArgs.

Fixpoint find_flag (flag : string) (argv : list string) : option string :=
  match argv with
  | f :: ((v :: rest) as tail) =>
      if String.eqb f flag then Some v else find_flag flag tail
  | _ => None
  end.

Definition value_of (a : argument) (argv : list string) : option string :=
  match find_flag (arg_flag a) argv with
  | Some v => Some v
  | None => if arg_required a then None else arg_default a
  end.

Definition parse_args (p : ArgumentParser) (argv : list string) : parsed :=
  if bool_decide (argv = ["-h"]) then SystemExit 0 [parser_description p]
  else
    match parser_arguments p with
    | [a1; a2; a3] =>
        match value_of a1 argv, value_of a2 argv, value_of a3 argv with
        | Some i, Some f, Some d => Parsed {| input := i; output_format := f; output_dir := d |}
        | _, _, _ => SystemExit 2 []
        end
    | _ => SystemExit 2 []
    end.

End DemoArgs.

(** * Properties *)

(** ** Strings and paths *)

Example lower_PNG : Str.lower "PnG" = "png". Proof. reflexivity. Qed.
Example upper_jpg : Str.upper "jpg" = "JPG". Proof. reflexivity. Qed.
Example of_nat_12 : Str.of_nat 12 = "12". Proof. reflexivity. Qed.
Example join_rel : Posixpath.join "out" "output.pdf" = "out/output.pdf". Proof. reflexivity. Qed.
Example join_slash : Posixpath.join "out/" "output.pdf" = "out/output.pdf". Proof. reflexivity. Qed.
Example join_empty : Posixpath.join "" "output.pdf" = "output.pdf". Proof. reflexivity. Qed.
Example splitext_png : Posixpath.splitext "a/b.c/photo.png" = ("a/b.c/photo", ".png"). Proof. reflexivity. Qed.
Example splitext_noext : Posixpath.splitext "a/b.c/photo" = ("a/b.c/photo", ""). Proof. reflexivity. Qed.
Example splitext_hidden : Posixpath.splitext "a/.bashrc" = ("a/.bashrc", ""). Proof. reflexivity. Qed.
Example splitext_dots : Posixpath.splitext "..x.tar.gz" = ("..x.tar", ".gz"). Proof. reflexivity. Qed.
Example dirname_ex : Posixpath.dirname "a/b//photo.png" = "a/b". Proof. reflexivity. Qed.
Example dirname_root : Posixpath.dirname "/photo.png" = "/". Proof. reflexivity. Qed.

Lemma append_nil_l (b : string) : "" +:+ b = b.
Proof. reflexivity. Qed.

Lemma append_cons (c : ascii) (a b : string) : String c a +:+ b = String c (a +:+ b).
Proof. reflexivity. Qed.

Lemma take_drop n s : Str.take n s +:+ Str.drop n s = s.
Proof.
  revert n. induction s as [|c s IH]; intros [|n]; simpl; try done.
  by rewrite append_cons, IH.
Qed.

Lemma append_assoc (a b c : string) : (a +:+ b) +:+ c = a +:+ (b +:+ c).
Proof. induction a as [|x a IH]; [done|]. by rewrite !append_cons, IH. Qed.

Lemma append_empty_r (a : string) : a +:+ "" = a.
Proof. induction a as [|x a IH]; [done|]. by rewrite append_cons, IH. Qed.

Lemma length_append (a b : string) :
  String.length (a +:+ b) = (String.length a + String.length b)%nat.
Proof. induction a as [|x a IH]; [done|]. rewrite append_cons. simpl. by rewrite IH. Qed.

(** Cancelling a common suffix. *)
Lemma append_inj_r (a b s : string) : a +:+ s = b +:+ s → a = b.
Proof.
  intros H.
  assert (Hlen : String.length a = String.length b).
  { apply (f_equal String.length) in H. rewrite !length_append in H. lia. }
  revert b H Hlen. induction a as [|x a IH]; intros [|y b] H Hlen; simpl in *; try done.
  rewrite !append_cons in H. injection H as -> H. f_equal. by apply IH; [|lia].
Qed.

(** [splitext] cuts the path in two. *)
Lemma splitext_append p : fst (Posixpath.splitext p) +:+ snd (Posixpath.splitext p) = p.
Proof.
  unfold Posixpath.splitext.
  destruct (_ && _)%bool; simpl; [apply take_drop | apply append_empty_r].
Qed.

(** ** The log of calls *)

Lemma keeps_calls_ret {A} (a : A) : keeps_calls (ret a).
Proof. by intros w. Qed.

Lemma keeps_calls_raise {A} e : keeps_calls (@raise A e).
Proof. by intros w. Qed.

Lemma keeps_calls_print line : keeps_calls (print line).
Proof. by intros w. Qed.

Lemma keeps_calls_reading {A} (f : gmap string file_data → result A) : keeps_calls (reading f).
Proof. by intros w. Qed.

Lemma keeps_calls_writing err leaves path data : keeps_calls (writing err leaves path data).
Proof. intros w. unfold writing. by destruct (err (files w)). Qed.

Lemma keeps_calls_bind {A B} (m : M A) (k : A → M B) :
  keeps_calls m → (∀ a, keeps_calls (k a)) → keeps_calls (bind m k).
Proof.
  intros Hm Hk w. unfold bind. specialize (Hm w).
  destruct (m w) as [[a|e] w']; simpl in *; [|done].
  by rewrite Hk.
Qed.

Lemma keeps_calls_try_except {A} (body : M A) handler :
  keeps_calls body → (∀ e, keeps_calls (handler e)) → keeps_calls (try_except body handler).
Proof.
  intros Hm Hk w. unfold try_except. specialize (Hm w).
  destruct (body w) as [[a|e] w']; simpl in *; [done|].
  by rewrite Hk.
Qed.

Lemma keeps_calls_for_each {A} (body : A → M unit) l :
  (∀ x, keeps_calls (body x)) → keeps_calls (for_each body l).
Proof.
  intros Hb. induction l as [|x l IH]; simpl.
  - apply keeps_calls_ret.
  - apply keeps_calls_bind; [apply Hb | by intros _].
Qed.

Lemma keeps_calls_multi_cell L w h txt pdf : keeps_calls (multi_cell L w h txt pdf).
Proof.
  unfold multi_cell. destruct (multi_cell_error L pdf txt);
    [apply keeps_calls_raise | apply keeps_calls_ret].
Qed.

Lemma keeps_calls_add_paragraphs L paras pdf : keeps_calls (add_paragraphs L paras pdf).
Proof.
  revert pdf. induction paras as [|para paras IH]; intros pdf; simpl.
  - apply keeps_calls_ret.
  - apply keeps_calls_bind; [apply keeps_calls_multi_cell | apply IH].
Qed.

(** After [enter r], a body that enters nothing leaves exactly one more call. *)
Lemma calls_enter {A} r (m : M A) w :
  keeps_calls m → calls (bind (enter r) (λ _, m) w).2 = calls w ++ [r].
Proof. intros Hm. unfold bind, enter. simpl. by rewrite Hm. Qed.

Lemma pdf_to_image_calls L i d f w :
  calls (pdf_to_image L i d f w).2 = calls w ++ [PdfToImage].
Proof.
  apply calls_enter, keeps_calls_try_except.
  - apply keeps_calls_bind; [apply keeps_calls_reading|].
    intros images. apply keeps_calls_for_each. intros [k img].
    apply keeps_calls_writing.
  - intros e. apply keeps_calls_print.
Qed.

Lemma pdf_to_docx_calls i o w :
  calls (pdf_to_docx i o w).2 = calls w ++ [PdfToDocx].
Proof. done. Qed.

Lemma docx_to_pdf_calls L i o w :
  calls (docx_to_pdf L i o w).2 = calls w ++ [DocxToPdf].
Proof.
  apply calls_enter, keeps_calls_bind; [apply keeps_calls_reading|].
  intros doc. apply keeps_calls_bind; [apply keeps_calls_add_paragraphs|].
  intros pdf. apply keeps_calls_writing.
Qed.

Lemma image_to_image_calls L i f w :
  calls (image_to_image L i f w).2 = calls w ++ [ImageToImage].
Proof.
  apply calls_enter, keeps_calls_try_except.
  - apply keeps_calls_bind; [apply keeps_calls_reading|].
    intros img. apply keeps_calls_writing.
  - intros e. apply keeps_calls_print.
Qed.

Lemma run_branch_calls L b args w :
  calls (run_branch L b args w).2 = calls w ++ option_list (branch_routine b).
Proof.
  destruct b; simpl.
  - apply pdf_to_image_calls.
  - done.
  - apply docx_to_pdf_calls.
  - apply image_to_image_calls.
  - by rewrite app_nil_r.
Qed.

(** ** The dispatch *)

(** [main] is the existence check followed by the selected branch. *)
Lemma main_dispatch L args w :
  main L args w =
    if bool_decide (is_Some (files w !! input args))
    then run_branch L (dispatch (Str.lower (output_format args))) args w
    else print "Error: Input file not found." w.
Proof.
  unfold main, bind, os_path_isfile, dispatch, run_branch.
  destruct (bool_decide (is_Some (files w !! input args))); simpl; [|done].
  generalize (Str.lower (output_format args)). intros f.
  destruct (String.eqb f "jpg"), (String.eqb f "png"); simpl; try done;
    destruct (String.eqb f "docx"); try done;
    by destruct (String.eqb f "pdf").
Qed.

(** The fourth test is never reached with a format it accepts. *)
Lemma dispatch_not_image_to_image fmt : dispatch fmt ≠ BImageToImage.
Proof.
  unfold dispatch, str_in. simpl.
  destruct (String.eqb fmt "jpg"), (String.eqb fmt "png"); simpl; try done;
    destruct (String.eqb fmt "docx"); try done;
    destruct (String.eqb fmt "pdf"); done.
Qed.

Lemma is_file_true (w : world) path :
  is_Some (files w !! path) → bool_decide (is_Some (files w !! path)) = true.
Proof. apply bool_decide_eq_true_2. Qed.

Lemma is_file_false (w : world) path :
  files w !! path = None → bool_decide (is_Some (files w !! path)) = false.
Proof. intros H. apply bool_decide_eq_false_2. rewrite H. by intros [? ?]. Qed.

(** ** The input check and the stub *)

(** C5. When the input path names no existing file, [main] prints
    "Error: Input file not found." and returns: no routine is entered, no file
    is written, nothing else is printed. *)
Theorem main_input_not_found L args w :
  files w !! input args = None →
  ∃ w', main L args w = (Ok tt, w')
        ∧ stdout w' = stdout w ++ ["Error: Input file not found."]
        ∧ calls w' = calls w
        ∧ files w' = files w.
Proof.
  intros Hnone. rewrite main_dispatch, (is_file_false _ _ Hnone).
  by eexists.
Qed.

Lemma main_input_not_found_witness :
  files Demo.start !! input (Demo.args "in/nothing" "png" "out") = None
  ∧ ∃ w', main Demo.library (Demo.args "in/nothing" "png" "out") Demo.start = (Ok tt, w')
          ∧ stdout w' = stdout Demo.start ++ ["Error: Input file not found."]
          ∧ calls w' = calls Demo.start
          ∧ files w' = files Demo.start.
Proof.
  split; [vm_compute; reflexivity|].
  apply main_input_not_found. vm_compute; reflexivity.
Defined.

(** C4. With an existing input file and the format [docx] (in any letter
    case), [main] enters the PDF-to-DOCX routine, which prints the
    not-implemented line; the files are exactly what they were. *)
Theorem main_docx_not_implemented L args w :
  is_Some (files w !! input args) →
  Str.lower (output_format args) = "docx" →
  ∃ w', main L args w = (Ok tt, w')
        ∧ stdout w' = stdout w ++ ["PDF to DOCX conversion is not implemented yet."]
        ∧ calls w' = calls w ++ [PdfToDocx]
        ∧ files w' = files w.
Proof.
  intros Hfile Hfmt. rewrite main_dispatch, (is_file_true _ _ Hfile), Hfmt.
  by eexists.
Qed.

Lemma main_docx_not_implemented_witness :
  is_Some (files Demo.start !! input (Demo.args "in/scan.pdf" "DOCX" "out"))
  ∧ Str.lower (output_format (Demo.args "in/scan.pdf" "DOCX" "out")) = "docx"
  ∧ ∃ w', main Demo.library (Demo.args "in/scan.pdf" "DOCX" "out") Demo.start = (Ok tt, w')
          ∧ stdout w' = stdout Demo.start ++ ["PDF to DOCX conversion is not implemented yet."]
          ∧ calls w' = calls Demo.start ++ [PdfToDocx]
          ∧ files w' = files Demo.start.
Proof.
  assert (Hfile : is_Some (files Demo.start !! input (Demo.args "in/scan.pdf" "DOCX" "out"))).
  { vm_compute. by eexists. }
  split; [exact Hfile|]. split; [reflexivity|].
  apply main_docx_not_implemented; [exact Hfile | reflexivity].
Defined.

(** C6. The fourth branch of the dispatch is dead: no format string selects
    it, and whatever the library, the arguments and the world, [main] never
    enters the image-to-image routine. *)
Theorem image_to_image_branch_dead :
  (∀ output_format, dispatch output_format ≠ BImageToImage)
  ∧ (∀ L args w, ∃ entered,
       calls (main L args w).2 = calls w ++ entered ∧ ImageToImage ∉ entered).
Proof.
  split; [apply dispatch_not_image_to_image|].
  intros L args w. rewrite main_dispatch.
  destruct (bool_decide (is_Some (files w !! input args))).
  - exists (option_list (branch_routine (dispatch (Str.lower (output_format args))))).
    split; [apply run_branch_calls|].
    pose proof (dispatch_not_image_to_image (Str.lower (output_format args))) as Hne.
    destruct (dispatch (Str.lower (output_format args))); simpl; try done;
      first [ by intros ?%list_elem_of_singleton | apply not_elem_of_nil ].
  - exists []. split; [by rewrite app_nil_r | apply not_elem_of_nil].
Qed.

(** C7. Two invocations whose formats are equal up to letter case take the
    same branch of the dispatch, the one [dispatch] gives for the lower-cased
    format, whatever their input paths, files, output directories and
    libraries: each invocation that reaches the dispatch (its input is a file)
    is the body of that branch and enters the routine of that branch. *)
Theorem dispatch_on_lowered_format_only L1 L2 args1 args2 w1 w2 :
  Str.lower (output_format args1) = Str.lower (output_format args2) →
  ∃ b, b = dispatch (Str.lower (output_format args1))
       ∧ (is_Some (files w1 !! input args1) →
            main L1 args1 w1 = run_branch L1 b args1 w1
            ∧ calls (main L1 args1 w1).2 = calls w1 ++ option_list (branch_routine b))
       ∧ (is_Some (files w2 !! input args2) →
            main L2 args2 w2 = run_branch L2 b args2 w2
            ∧ calls (main L2 args2 w2).2 = calls w2 ++ option_list (branch_routine b)).
Proof.
  intros Heq. eexists. split; [reflexivity|]. split.
  - intros Hf. rewrite main_dispatch, (is_file_true _ _ Hf).
    split; [done | apply run_branch_calls].
  - intros Hf. rewrite main_dispatch, (is_file_true _ _ Hf), <- Heq.
    split; [done | apply run_branch_calls].
Qed.

Lemma dispatch_on_lowered_format_only_witness :
  Str.lower "PNG" = Str.lower "png"
  ∧ main Demo.library (Demo.args "in/scan.pdf" "PNG" "out") Demo.start
    = run_branch Demo.library BPdfToImage (Demo.args "in/scan.pdf" "PNG" "out") Demo.start
  ∧ main Demo.library (Demo.args "in/notes.txt" "png" "") Demo.start
    = run_branch Demo.library BPdfToImage (Demo.args "in/notes.txt" "png" "") Demo.start
  ∧ calls (main Demo.library (Demo.args "in/scan.pdf" "PNG" "out") Demo.start).2
    = [PdfToImage]
  ∧ calls (main Demo.library (Demo.args "in/notes.txt" "png" "") Demo.start).2
    = [PdfToImage].
Proof.
  destruct (dispatch_on_lowered_format_only Demo.library Demo.library
              (Demo.args "in/scan.pdf" "PNG" "out") (Demo.args "in/notes.txt" "png" "")
              Demo.start Demo.start)
    as (b & -> & H1 & H2); [reflexivity|].
  destruct H1 as [Hrun1 Hcalls1]; [vm_compute; by eexists|].
  destruct H2 as [Hrun2 Hcalls2]; [vm_compute; by eexists|].
  split; [reflexivity|]. split; [exact Hrun1|]. split; [exact Hrun2|].
  split; [exact Hcalls1 | exact Hcalls2].
Defined.

(** ** Errors raised inside the routines *)

Lemma returns_try_except {A} (body : M A) handler :
  (∀ e, returns (handler e)) → returns (try_except body handler).
Proof.
  intros Hh w. unfold try_except.
  destruct (body w) as [[a|e] w']; [by exists a | apply Hh].
Qed.

Lemma returns_enter {A} r (m : M A) : returns m → returns (bind (enter r) (λ _, m)).
Proof. intros Hm w. apply Hm. Qed.

Lemma returns_print line : returns (print line).
Proof. intros w. by exists tt. Qed.

(** The two routines with a [try]/[except] block return normally whatever the
    libraries do, and so does the stub. *)
Lemma pdf_to_image_returns L input_file output_dir output_format :
  returns (pdf_to_image L input_file output_dir output_format).
Proof. apply returns_enter, returns_try_except. intros e. apply returns_print. Qed.

Lemma image_to_image_returns L input_file output_format :
  returns (image_to_image L input_file output_format).
Proof. apply returns_enter, returns_try_except. intros e. apply returns_print. Qed.

Lemma pdf_to_docx_returns input_file output_file :
  returns (pdf_to_docx input_file output_file).
Proof. apply returns_enter, returns_print. Qed.

Lemma dispatch_pdf : dispatch "pdf" = BDocxToPdf.
Proof. reflexivity. Qed.

(** C1, at the input where it fails. [docx_to_pdf] has no [try]/[except]
    block: when the document library raises on the input file (an unreadable
    file, or one that is not a DOCX), the exception leaves [docx_to_pdf] and
    [main], nothing is printed, and the script ends with exit status 1. *)
Theorem docx_to_pdf_error_escapes L args w e :
  is_Some (files w !! input args) →
  Str.lower (output_format args) = "pdf" →
  Document L (files w) (input args) = Raise e →
  docx_to_pdf L (input args) (Posixpath.join (output_dir args) "output.pdf") w
    = (Raise e, add_call DocxToPdf w)
  ∧ main L args w = (Raise e, add_call DocxToPdf w)
  ∧ script L args w = (1, add_call DocxToPdf w).
Proof.
  intros Hfile Hfmt Hdoc.
  assert (Hr : docx_to_pdf L (input args) (Posixpath.join (output_dir args) "output.pdf") w
               = (Raise e, add_call DocxToPdf w)).
  { unfold docx_to_pdf, bind, enter, reading. simpl. by rewrite Hdoc. }
  assert (Hm : main L args w = (Raise e, add_call DocxToPdf w)).
  { rewrite main_dispatch, (is_file_true _ _ Hfile), Hfmt, dispatch_pdf. exact Hr. }
  split; [exact Hr|]. split; [exact Hm|].
  unfold script. by rewrite Hm.
Qed.

Lemma docx_to_pdf_error_escapes_witness :
  script Demo.library (Demo.args "in/notes.txt" "pdf" "out") Demo.start
    = (1, add_call DocxToPdf Demo.start)
  ∧ stdout (add_call DocxToPdf Demo.start) = [].
Proof.
  split; [|reflexivity].
  apply (docx_to_pdf_error_escapes Demo.library (Demo.args "in/notes.txt" "pdf" "out")
           Demo.start (Exception "Package not found at in/notes.txt")).
  - vm_compute. by eexists.
  - reflexivity.
  - vm_compute. reflexivity.
Defined.

(** With a library that does not know the format name, [pdf_to_image] prints
    the diagnostic, returns and writes nothing. *)
Example pdf_to_image_refused_format :
  main Demo.library (Demo.args "in/scan.pdf" "jpg" "out") Demo.start
  = (Ok tt, add_stdout "Error converting PDF to image: JPG" (add_call PdfToImage Demo.start)).
Proof. vm_compute. reflexivity. Qed.

(** An unsupported format: the diagnostic, and nothing else. *)
Lemma main_unsupported_format L args w :
  is_Some (files w !! input args) →
  dispatch (Str.lower (output_format args)) = BUnsupported →
  main L args w = (Ok tt, add_stdout "Error: Unsupported output format." w).
Proof.
  intros Hfile Hb. by rewrite main_dispatch, (is_file_true _ _ Hfile), Hb.
Qed.

Example main_gif :
  main Demo.library (Demo.args "in/photo.png" "gif" "out") Demo.start
  = (Ok tt, add_stdout "Error: Unsupported output format." Demo.start).
Proof. vm_compute. reflexivity. Qed.

(** Only the format [pdf] selects the routine without a [try]/[except] block. *)
Lemma dispatch_docx_to_pdf fmt : dispatch fmt = BDocxToPdf → fmt = "pdf".
Proof.
  unfold dispatch, str_in. simpl.
  destruct (String.eqb fmt "jpg"), (String.eqb fmt "png"); simpl; try done;
    destruct (String.eqb fmt "docx"); try done;
    destruct (String.eqb_spec fmt "pdf"); done.
Qed.

(** For every other format the script ends with exit status 0, whatever the
    libraries do. *)
Lemma script_exit_status_zero L args w :
  Str.lower (output_format args) ≠ "pdf" → (script L args w).1 = 0.
Proof.
  intros Hfmt. unfold script. rewrite main_dispatch.
  destruct (bool_decide (is_Some (files w !! input args))); [|done].
  destruct (dispatch (Str.lower (output_format args))) eqn:Hb; simpl.
  - destruct (pdf_to_image_returns L (input args) (output_dir args)
                (Str.lower (output_format args)) w) as [a Ha].
    destruct (pdf_to_image _ _ _ _ w) as [[?|?] ?]; simpl in *; done.
  - done.
  - by apply dispatch_docx_to_pdf in Hb.
  - destruct (image_to_image_returns L (input args) (Str.lower (output_format args)) w)
      as [a Ha].
    destruct (image_to_image _ _ _ w) as [[?|?] ?]; simpl in *; done.
  - done.
Qed.

(** ** DOCX to PDF *)

(** The paragraph loop, when no cell fails: the cells grow by one cell per
    paragraph, in order, each in Arial 12; the page count does not shrink and
    the page-break settings stay. *)
Lemma add_paragraphs_ok L paras : ∀ pdf w,
  (∀ pdf' para, para ∈ paras → multi_cell_error L pdf' (text para) = None) →
  ∃ pdf', add_paragraphs L paras pdf w = (Ok pdf', w)
          ∧ cells pdf' =
              cells pdf ++
              ((λ para, {| cell_family := "Arial"; cell_size := 12;
                           cell_w := 0; cell_h := 10; cell_txt := text para |}) <$> paras)
          ∧ (page pdf ≤ page pdf')%nat.
Proof.
  induction paras as [|para paras IH]; intros pdf w Hok; simpl.
  - exists pdf. by rewrite app_nil_r.
  - unfold bind, multi_cell. simpl.
    rewrite (Hok _ para) by apply list_elem_of_here. simpl.
    edestruct IH as (pdf' & -> & Hcells & Hpage).
    { intros pdf'' para' Hin. apply Hok. by apply list_elem_of_further. }
    exists pdf'. split; [done|]. simpl in *. split.
    + by rewrite Hcells, <- app_assoc.
    + lia.
Qed.

(** With no paragraph the loop leaves the object as it is. *)
Lemma add_paragraphs_nil L pdf w : add_paragraphs L [] pdf w = (Ok pdf, w).
Proof. reflexivity. Qed.

(** C3. For an existing input that the document library reads as [doc], with
    the format [pdf], and when neither the text cells nor the final write
    fail, [main] writes one file, [<output_dir>/output.pdf], and changes no
    other; the PDF written holds one cell per paragraph, with the paragraphs'
    texts in document order, all in Arial at 12 points. *)
Theorem docx_to_pdf_writes_paragraphs L args w doc :
  is_Some (files w !! input args) →
  Str.lower (output_format args) = "pdf" →
  Document L (files w) (input args) = Ok doc →
  (∀ pdf para, para ∈ paragraphs doc → multi_cell_error L pdf (text para) = None) →
  (∀ pdf name, output_error L pdf name (files w) = None) →
  ∃ pdf w', main L args w = (Ok tt, w')
    ∧ files w' = <[Posixpath.join (output_dir args) "output.pdf" := PdfFile pdf]> (files w)
    ∧ stdout w' = stdout w
    ∧ cell_txt <$> cells pdf = text <$> paragraphs doc
    ∧ length (cells pdf) = length (paragraphs doc)
    ∧ Forall (λ c, cell_family c = "Arial" ∧ cell_size c = 12) (cells pdf).
Proof.
  intros Hfile Hfmt Hdoc Hcell Hout.
  rewrite main_dispatch, (is_file_true _ _ Hfile), Hfmt, dispatch_pdf.
  unfold run_branch, docx_to_pdf, bind, enter, reading. simpl. rewrite Hdoc.
  edestruct (add_paragraphs_ok L (paragraphs doc)) as (pdf & -> & Hcells & _);
    [exact Hcell|].
  unfold output, writing. simpl. rewrite Hout.
  exists pdf. eexists. split; [reflexivity|]. simpl in Hcells. rewrite Hcells. simpl.
  repeat split.
  - rewrite <- list_fmap_compose. by apply list_fmap_ext.
  - by rewrite length_fmap.
  - apply Forall_fmap, Forall_true. by intros para.
Qed.

Lemma docx_to_pdf_writes_paragraphs_witness :
  ∃ pdf w', main Demo.library (Demo.args "in/letter.docx" "PDF" "out") Demo.start = (Ok tt, w')
    ∧ files w' = <["out/output.pdf" := PdfFile pdf]> (files Demo.start)
    ∧ stdout w' = []
    ∧ cell_txt <$> cells pdf = ["hello"; "world"]
    ∧ length (cells pdf) = 2%nat
    ∧ Forall (λ c, cell_family c = "Arial" ∧ cell_size c = 12) (cells pdf).
Proof.
  apply (docx_to_pdf_writes_paragraphs Demo.library (Demo.args "in/letter.docx" "PDF" "out")
           Demo.start {| paragraphs := [ {| text := "hello" |}; {| text := "world" |} ] |}).
  - vm_compute. by eexists.
  - reflexivity.
  - vm_compute. reflexivity.
  - reflexivity.
  - reflexivity.
Defined.

(** C10. For an existing input that the document library reads as a document
    with no paragraph, with the format [pdf], and when the final write does not
    fail, [main] still writes [<output_dir>/output.pdf]; the PDF written has
    exactly one page and no text cell. *)
Theorem docx_to_pdf_empty_document L args w doc :
  is_Some (files w !! input args) →
  Str.lower (output_format args) = "pdf" →
  Document L (files w) (input args) = Ok doc →
  paragraphs doc = [] →
  (∀ pdf name, output_error L pdf name (files w) = None) →
  ∃ pdf w', main L args w = (Ok tt, w')
    ∧ files w' = <[Posixpath.join (output_dir args) "output.pdf" := PdfFile pdf]> (files w)
    ∧ page pdf = 1%nat
    ∧ cells pdf = [].
Proof.
  intros Hfile Hfmt Hdoc Hnil Hout.
  rewrite main_dispatch, (is_file_true _ _ Hfile), Hfmt, dispatch_pdf.
  unfold run_branch, docx_to_pdf, bind, enter, reading. simpl. rewrite Hdoc, Hnil.
  rewrite add_paragraphs_nil. unfold output, writing. simpl. rewrite Hout.
  eexists. eexists. split; [reflexivity|]. by simpl.
Qed.

Lemma docx_to_pdf_empty_document_witness :
  ∃ pdf w', main Demo.library (Demo.args "in/empty.docx" "pdf" "") Demo.start = (Ok tt, w')
    ∧ files w' = <["output.pdf" := PdfFile pdf]> (files Demo.start)
    ∧ page pdf = 1%nat
    ∧ cells pdf = [].
Proof.
  apply (docx_to_pdf_empty_document Demo.library (Demo.args "in/empty.docx" "pdf" "")
           Demo.start {| paragraphs := [] |}).
  - vm_compute. by eexists.
  - reflexivity.
  - vm_compute. reflexivity.
  - reflexivity.
  - reflexivity.
Defined.

(** ** PDF to images *)

(** Joining a directory with a relative name puts one fixed prefix before
    the name. *)
Lemma join_relative a : ∃ pre, ∀ b, Str.startswith Posixpath.sep b = false →
  Posixpath.join a b = pre +:+ b.
Proof.
  destruct (bool_decide (a = "") || Str.endswith Posixpath.sep a)%bool eqn:Ha.
  - exists a. intros b Hb. unfold Posixpath.join. by rewrite Hb, Ha.
  - exists (a +:+ String Posixpath.sep ""). intros b Hb. unfold Posixpath.join.
    by rewrite Hb, Ha, append_assoc.
Qed.

(** Two pages never share a file name. *)
Lemma page_file_inj d f : Inj (=) (=) (page_file d f).
Proof.
  intros i j Heq. unfold page_file in Heq.
  destruct (join_relative d) as [pre Hpre].
  rewrite !Hpre in Heq by done.
  apply (inj (String.app pre)), (inj (String.app "output_")) in Heq.
  apply append_inj_r in Heq. unfold Str.of_nat in Heq.
  apply (inj pretty) in Heq. lia.
Qed.

Section SavePages.

Variable L : Library.
Variables output_dir output_format : string.

Hypothesis save_ok : ∀ img fp fs,
  Image_save_error L img fp (Str.upper output_format) fs = None.

Lemma save_pages_ok images : ∀ k w,
  for_each
    (λ '(i, image),
       Image_save L image (page_file output_dir output_format i) (Str.upper output_format))
    (enumerate_from k images) w
  = (Ok tt, set_files (λ fs, foldl (save_page output_dir output_format) fs (enumerate_from k images)) w).
Proof.
  induction images as [|img images IH]; intros k w; simpl.
  - by destruct w.
  - unfold bind at 1. unfold Image_save at 1, writing. simpl.
    rewrite save_ok. by rewrite IH.
Qed.

(** Paths that are no page file keep their content. *)
Lemma save_pages_other images : ∀ k fs p,
  (∀ i, (i < length images)%nat → p ≠ page_file output_dir output_format (k + i)) →
  foldl (save_page output_dir output_format) fs (enumerate_from k images) !! p = fs !! p.
Proof.
  induction images as [|img images IH]; intros k fs p Hp; simpl; [done|].
  rewrite IH.
  - unfold save_page. simpl. apply lookup_insert_ne.
    specialize (Hp 0%nat). rewrite Nat.add_0_r in Hp. intros Heq. apply Hp; [simpl; lia | done].
  - intros i Hi. replace (S k + i)%nat with (k + S i)%nat by lia. apply Hp. simpl. lia.
Qed.

(** Page [i] ends in its own file. *)
Lemma save_pages_page images : ∀ k fs i img,
  images !! i = Some img →
  foldl (save_page output_dir output_format) fs (enumerate_from k images) !! page_file output_dir output_format (k + i)
  = Some (ImageFile (Str.upper output_format) img).
Proof.
  induction images as [|img0 images IH]; intros k fs i img Hi; [done|].
  destruct i as [|i]; simpl in *.
  - injection Hi as ->. rewrite save_pages_other.
    + unfold save_page. simpl. rewrite Nat.add_0_r. apply lookup_insert_eq.
    + intros j _ Heq. apply page_file_inj in Heq. lia.
  - replace (k + S i)%nat with (S k + i)%nat by lia. by apply IH.
Qed.

End SavePages.

Lemma dispatch_png : dispatch "png" = BPdfToImage.
Proof. reflexivity. Qed.

Lemma dispatch_jpg : dispatch "jpg" = BPdfToImage.
Proof. reflexivity. Qed.

(** The page loop when every save succeeds. For an existing input that the
    PDF library renders as the pages [images], with a lower-cased format [png]
    or [jpg], and with a library that saves under the upper-cased name, [main]
    returns without printing and leaves page number [n] (counted from 1, in
    page order) at the path [<output_dir>/output_<n>.<ext>]; these paths are
    pairwise distinct, and every other path keeps its content. *)
Lemma pdf_to_image_writes_pages L args w images :
  is_Some (files w !! input args) →
  Str.lower (output_format args) = "png" ∨ Str.lower (output_format args) = "jpg" →
  convert_from_path L (files w) (input args) = Ok images →
  (∀ img fp fs,
     Image_save_error L img fp (Str.upper (Str.lower (output_format args))) fs = None) →
  let ext := Str.lower (output_format args) in
  let name n := Posixpath.join (output_dir args) ("output_" +:+ Str.of_nat n +:+ "." +:+ ext) in
  ∃ w', main L args w = (Ok tt, w')
    ∧ stdout w' = stdout w
    ∧ (∀ i img, images !! i = Some img →
         files w' !! name (i + 1)%nat = Some (ImageFile (Str.upper ext) img))
    ∧ NoDup (name <$> seq 1 (length images))
    ∧ length (name <$> seq 1 (length images)) = length images
    ∧ (∀ p, p ∉ name <$> seq 1 (length images) → files w' !! p = files w !! p).
Proof.
  intros Hfile Hfmt Hconv Hsave ext name.
  assert (Hb : dispatch ext = BPdfToImage).
  { subst ext. by destruct Hfmt as [-> | ->]. }
  rewrite main_dispatch, (is_file_true _ _ Hfile). fold ext. rewrite Hb.
  unfold run_branch, pdf_to_image, bind, enter, try_except, reading. simpl.
  rewrite Hconv. unfold enumerate. fold ext.
  rewrite (save_pages_ok L (output_dir args) ext Hsave). simpl.
  assert (Hname : ∀ i, name (i + 1)%nat = page_file (output_dir args) ext i) by done.
  eexists. split; [reflexivity|]. simpl. split; [done|]. split; [|split; [|split]].
  - intros i img Hi. rewrite Hname. by apply (save_pages_page _ _ images 0).
  - apply NoDup_fmap_2_strong; [|apply NoDup_seq].
    intros n m [Hn _]%elem_of_seq [Hm _]%elem_of_seq Heq.
    replace n with (n - 1 + 1)%nat in Heq by lia.
    replace m with (m - 1 + 1)%nat in Heq by lia.
    rewrite !Hname in Heq. apply page_file_inj in Heq. lia.
  - by rewrite length_fmap, length_seq.
  - intros p Hp. apply (save_pages_other _ _ images 0). intros i Hi Heq. apply Hp.
    apply list_elem_of_fmap. exists (i + 1)%nat. split; [by rewrite Hname|].
    apply elem_of_seq. lia.
Qed.

(** X13. For an existing input that the PDF library renders as the pages
    [images], with the format [png] (in any letter case), and when the image
    library saves under the name [PNG], [main] returns without printing and
    leaves page number [n] (counted from 1, in page order) in
    [<output_dir>/output_<n>.png]; these names are pairwise distinct, so there
    are as many files as pages. *)
Theorem pdf_to_image_writes_png_pages L args w images :
  is_Some (files w !! input args) →
  Str.lower (output_format args) = "png" →
  convert_from_path L (files w) (input args) = Ok images →
  (∀ img fp fs, Image_save_error L img fp "PNG" fs = None) →
  let name n := Posixpath.join (output_dir args) ("output_" +:+ Str.of_nat n +:+ ".png") in
  ∃ w', main L args w = (Ok tt, w')
    ∧ stdout w' = stdout w
    ∧ (∀ i img, images !! i = Some img →
         files w' !! name (i + 1)%nat = Some (ImageFile "PNG" img))
    ∧ NoDup (name <$> seq 1 (length images))
    ∧ length (name <$> seq 1 (length images)) = length images.
Proof.
  intros Hfile Hfmt Hconv Hsave name.
  destruct (pdf_to_image_writes_pages L args w images Hfile (or_introl Hfmt) Hconv)
    as (w' & Hmain & Hout & Hpages & Hnodup & Hlen & _).
  { rewrite Hfmt. exact Hsave. }
  rewrite Hfmt in Hpages, Hnodup, Hlen.
  exists w'. repeat split; done.
Qed.

Lemma pdf_to_image_writes_png_pages_witness :
  ∃ w', main Demo.library (Demo.args "in/scan.pdf" "PNG" "out") Demo.start = (Ok tt, w')
    ∧ stdout w' = []
    ∧ files w' !! "out/output_1.png" = Some (ImageFile "PNG" (Raster 1 1 [97%N]))
    ∧ files w' !! "out/output_2.png" = Some (ImageFile "PNG" (Raster 1 1 [98%N]))
    ∧ files w' !! "out/output_3.png" = Some (ImageFile "PNG" (Raster 1 1 [99%N]))
    ∧ NoDup ["out/output_1.png"; "out/output_2.png"; "out/output_3.png"].
Proof.
  destruct (pdf_to_image_writes_png_pages Demo.library (Demo.args "in/scan.pdf" "PNG" "out")
              Demo.start (Demo.pages_of "abc"))
    as (w' & Hmain & Hout & Hpages & Hnodup & _).
  - vm_compute. by eexists.
  - reflexivity.
  - vm_compute. reflexivity.
  - reflexivity.
  - exists w'. split; [exact Hmain|]. split; [exact Hout|].
    split; [exact (Hpages 0%nat _ eq_refl)|].
    split; [exact (Hpages 1%nat _ eq_refl)|].
    split; [exact (Hpages 2%nat _ eq_refl)|].
    exact Hnodup.
Defined.

(** C2, at the input where it fails. For the format [jpg] line 12 hands the
    image library the format name [JPG]. With an image library that knows no
    format of that name and refuses it before opening the target (Pillow
    registers its JPEG plugin under the name [JPEG]), a PDF of at least one
    page gives no file at all: the first save raises, [main] prints the
    diagnostic of line 14 and returns, the files are as before and the exit
    status is 0. *)
Theorem pdf_to_image_jpg_writes_nothing L args w img images e :
  is_Some (files w !! input args) →
  Str.lower (output_format args) = "jpg" →
  convert_from_path L (files w) (input args) = Ok (img :: images) →
  Image_save_error L img (Posixpath.join (output_dir args) "output_1.jpg") "JPG" (files w)
    = Some e →
  Image_save_leaves L img (Posixpath.join (output_dir args) "output_1.jpg") "JPG" (files w)
    = files w !! Posixpath.join (output_dir args) "output_1.jpg" →
  ∃ w', main L args w = (Ok tt, w')
    ∧ script L args w = (0, w')
    ∧ stdout w' = stdout w ++ ["Error converting PDF to image: " +:+ str_exn e]
    ∧ calls w' = calls w ++ [PdfToImage]
    ∧ files w' = files w.
Proof.
  intros Hfile Hfmt Hconv Herr Hleaves.
  assert (Hm : ∃ w', main L args w = (Ok tt, w')
                 ∧ stdout w' = stdout w ++ ["Error converting PDF to image: " +:+ str_exn e]
                 ∧ calls w' = calls w ++ [PdfToImage]
                 ∧ files w' = files w).
  { rewrite main_dispatch, (is_file_true _ _ Hfile), Hfmt, dispatch_jpg.
    unfold run_branch, pdf_to_image, bind, enter, try_except, reading. simpl.
    rewrite Hconv, Hfmt. unfold enumerate. simpl.
    unfold bind, Image_save, writing. simpl.
    change (page_file (output_dir args) "jpg" 0)
      with (Posixpath.join (output_dir args) "output_1.jpg").
    change (Str.upper "jpg") with "JPG".
    rewrite Herr. unfold set_files, add_stdout. simpl. rewrite Hleaves.
    eexists. split; [reflexivity|]. simpl. repeat split.
    apply partial_alter_self. }
  destruct Hm as (w' & Hmain & Hrest). exists w'. split; [exact Hmain|].
  split; [|exact Hrest]. unfold script. by rewrite Hmain.
Qed.

Lemma pdf_to_image_jpg_writes_nothing_witness :
  ∃ w', main Demo.library (Demo.args "in/scan.pdf" "jpg" "out") Demo.start = (Ok tt, w')
    ∧ script Demo.library (Demo.args "in/scan.pdf" "jpg" "out") Demo.start = (0, w')
    ∧ stdout w' = stdout Demo.start ++ ["Error converting PDF to image: JPG"]
    ∧ calls w' = calls Demo.start ++ [PdfToImage]
    ∧ files w' = files Demo.start.
Proof.
  apply (pdf_to_image_jpg_writes_nothing Demo.library (Demo.args "in/scan.pdf" "jpg" "out")
           Demo.start (Raster 1 1 [97%N]) (Demo.pages_of "bc") (Exception "JPG")).
  - vm_compute. by eexists.
  - reflexivity.
  - vm_compute. reflexivity.
  - reflexivity.
  - reflexivity.
Defined.

(** ** Image to image *)

Lemma rfind_bounds c s : -1 ≤ Str.rfind c s < Z.of_nat (String.length s).
Proof.
  induction s as [|a s IH]; simpl; [lia|].
  destruct (0 <=? Str.rfind c s) eqn:Hr; [lia|].
  destruct (Ascii.eqb a c); lia.
Qed.

Lemma rfind_absent c s : Str.contains c s = false → Str.rfind c s = -1.
Proof.
  induction s as [|a s IH]; simpl; [done|].
  intros [Ha Hs]%orb_false_elim. by rewrite IH, Ha.
Qed.

Lemma rfind_negative c s : Str.rfind c s < 0 → Str.contains c s = false.
Proof.
  induction s as [|a s IH]; simpl; [done|].
  destruct (0 <=? Str.rfind c s) eqn:Hr.
  - apply Z.leb_le in Hr. lia.
  - apply Z.leb_gt in Hr. destruct (Ascii.eqb a c); [lia|]. intros _. by apply IH.
Qed.

(** A suffix without [c] does not move the last [c]. *)
Lemma rfind_append c s t : Str.contains c t = false → Str.rfind c (s +:+ t) = Str.rfind c s.
Proof.
  intros Ht. induction s as [|a s IH].
  - by apply rfind_absent.
  - rewrite append_cons. simpl. by rewrite IH.
Qed.

(** Nothing after the last [c] is a [c]. *)
Lemma contains_drop c s : ∀ n,
  Str.rfind c s < Z.of_nat n → Str.contains c (Str.drop n s) = false.
Proof.
  induction s as [|a s IH]; intros n Hn.
  - by destruct n.
  - destruct n as [|n].
    + apply rfind_negative. simpl Str.drop. lia.
    + simpl. apply IH. simpl in Hn.
      destruct (0 <=? Str.rfind c s) eqn:Hr; [lia|]. apply Z.leb_gt in Hr. lia.
Qed.

Lemma take_append s t : ∀ n, (n ≤ String.length s)%nat → Str.take n (s +:+ t) = Str.take n s.
Proof.
  induction s as [|a s IH]; intros [|n] Hn; simpl in *; try done; try lia.
  rewrite IH; [done | lia].
Qed.

(** Appending something without a separator stays in the same directory. *)
Lemma dirname_append s t :
  Str.contains Posixpath.sep t = false → Posixpath.dirname (s +:+ t) = Posixpath.dirname s.
Proof.
  intros Ht. unfold Posixpath.dirname. rewrite (rfind_append _ _ _ Ht).
  rewrite take_append; [done|].
  pose proof (rfind_bounds Posixpath.sep s). lia.
Qed.

(** The extension that [splitext] cuts off holds no separator. *)
Lemma splitext_ext_no_sep p :
  Str.contains Posixpath.sep (snd (Posixpath.splitext p)) = false.
Proof.
  unfold Posixpath.splitext.
  destruct (Str.rfind Posixpath.sep p <? Str.rfind Posixpath.extsep p) eqn:Hlt; simpl; [|done].
  destruct (Posixpath.has_non_dot _ _ _); simpl; [|done].
  apply Z.ltb_lt in Hlt. apply contains_drop.
  pose proof (rfind_bounds Posixpath.sep p). lia.
Qed.

(** The output of [image_to_image] lies in the directory of its input, for a
    format without a separator. *)
Lemma image_output_file_dirname input_file format :
  Str.contains Posixpath.sep format = false →
  Posixpath.dirname (image_output_file input_file format) = Posixpath.dirname input_file.
Proof.
  intros Hf. unfold image_output_file.
  rewrite dirname_append by (exact Hf).
  rewrite <- (splitext_append input_file) at 2.
  by rewrite (dirname_append _ _ (splitext_ext_no_sep input_file)).
Qed.

(** When the image opens and the save does not fail, the routine writes the
    image at the path of line 35. *)
Lemma image_to_image_saves L input_file format w img :
  Image_open L (files w) input_file = Ok img →
  Image_save_error L img (image_output_file input_file format) (Str.upper format) (files w)
    = None →
  ∃ w', image_to_image L input_file format w = (Ok tt, w')
        ∧ files w' =
            <[image_output_file input_file format := ImageFile (Str.upper format) img]> (files w).
Proof.
  intros Hopen Hsave.
  unfold image_to_image, bind, enter, try_except, reading, Image_save, writing. simpl.
  rewrite Hopen. simpl. rewrite Hsave. by eexists.
Qed.

(** C8. The image-to-image routine touches one path only, the input path
    with its extension replaced by the format: whatever happens, every other
    path keeps its content; when the image opens and the save does not fail,
    that path receives the image. The path lies in the directory of the input
    (for a format without a separator), and the output directory of the
    command line plays no part: the call of line 63 gives the same computation
    whatever it is. *)
Theorem image_to_image_output_location L input_file format w :
  let out := fst (Posixpath.splitext input_file) +:+ "." +:+ format in
  (∀ p, p ≠ out → files (image_to_image L input_file format w).2 !! p = files w !! p)
  ∧ (∀ img,
       Image_open L (files w) input_file = Ok img →
       Image_save_error L img out (Str.upper format) (files w) = None →
       ∃ w', image_to_image L input_file format w = (Ok tt, w')
             ∧ files w' = <[out := ImageFile (Str.upper format) img]> (files w))
  ∧ (Str.contains Posixpath.sep format = false →
       Posixpath.dirname out = Posixpath.dirname input_file)
  ∧ (∀ args dir,
       run_branch L BImageToImage
         {| input := input args; output_format := output_format args; output_dir := dir |}
       = run_branch L BImageToImage args).
Proof.
  intros out. split; [|split; [|split]].
  - intros p Hp.
    unfold image_to_image, bind, enter, try_except, reading, Image_save, writing. simpl.
    destruct (Image_open L (files w) input_file) as [img|e]; simpl; [|done].
    fold (image_output_file input_file format).
    destruct (Image_save_error L img _ _ (files w)); simpl.
    + rewrite lookup_partial_alter. by case_decide.
    + by apply lookup_insert_ne.
  - intros img. apply image_to_image_saves.
  - apply image_output_file_dirname.
  - done.
Qed.

Lemma image_to_image_output_location_witness :
  (∀ p, p ≠ "in/pic.png" →
     files (image_to_image Demo.library "in/pic.bmp" "png" Demo.start).2 !! p
     = files Demo.start !! p)
  ∧ (∃ w', image_to_image Demo.library "in/pic.bmp" "png" Demo.start = (Ok tt, w')
           ∧ files w' = <["in/pic.png" := ImageFile "PNG" (Raster 1 1 [9%N])]> (files Demo.start))
  ∧ Posixpath.dirname "in/pic.png" = Posixpath.dirname "in/pic.bmp".
Proof.
  destruct (image_to_image_output_location Demo.library "in/pic.bmp" "png" Demo.start)
    as (Hother & Hwrite & Hdir & _).
  split; [exact Hother|]. split.
  - apply Hwrite; vm_compute; reflexivity.
  - apply Hdir. reflexivity.
Defined.

(** C9. When the extension of the input path is the dot followed by the
    requested format, the output path of the image-to-image routine is the
    input path itself, and a save that succeeds replaces the content of the
    input file. *)
Theorem image_to_image_same_extension L input_file format :
  snd (Posixpath.splitext input_file) = "." +:+ format →
  fst (Posixpath.splitext input_file) +:+ "." +:+ format = input_file
  ∧ ∀ w img,
      Image_open L (files w) input_file = Ok img →
      Image_save_error L img input_file (Str.upper format) (files w) = None →
      ∃ w', image_to_image L input_file format w = (Ok tt, w')
            ∧ files w' = <[input_file := ImageFile (Str.upper format) img]> (files w).
Proof.
  intros Hext.
  assert (Hout : fst (Posixpath.splitext input_file) +:+ "." +:+ format = input_file).
  { rewrite <- Hext. apply splitext_append. }
  split; [exact Hout|]. intros w img Hopen Hsave.
  destruct (image_to_image_saves L input_file format w img Hopen) as (w' & Hrun & Hfiles).
  - unfold image_output_file. by rewrite Hout.
  - exists w'. split; [exact Hrun|].
    unfold image_output_file in Hfiles. by rewrite Hout in Hfiles.
Qed.

Lemma image_to_image_same_extension_witness :
  snd (Posixpath.splitext "in/photo.png") = "." +:+ "png"
  ∧ fst (Posixpath.splitext "in/photo.png") +:+ "." +:+ "png" = "in/photo.png"
  ∧ ∃ w', image_to_image Demo.library "in/photo.png" "png" Demo.start = (Ok tt, w')
          ∧ files w' = <["in/photo.png" := ImageFile "PNG" (Raster 1 1 [7%N])]> (files Demo.start).
Proof.
  destruct (image_to_image_same_extension Demo.library "in/photo.png" "png")
    as [Hpath Hsave]; [reflexivity|].
  split; [reflexivity|]. split; [exact Hpath|].
  apply Hsave; vm_compute; reflexivity.
Defined.

(** * Further properties of the script *)

(** ** Failures inside [pdf_to_image] *)

Lemma dispatch_image_format fmt : fmt = "png" ∨ fmt = "jpg" → dispatch fmt = BPdfToImage.
Proof. by intros [-> | ->]. Qed.

(** X1. When the PDF library raises on an existing input (format [png] or
    [jpg]), the script prints "Error converting PDF to image: " followed by the
    message of the exception, changes no file and ends with exit status 0. *)
Theorem pdf_to_image_convert_failure L args w e :
  is_Some (files w !! input args) →
  Str.lower (output_format args) = "png" ∨ Str.lower (output_format args) = "jpg" →
  convert_from_path L (files w) (input args) = Raise e →
  ∃ w', script L args w = (0, w')
    ∧ stdout w' = stdout w ++ ["Error converting PDF to image: " +:+ str_exn e]
    ∧ calls w' = calls w ++ [PdfToImage]
    ∧ files w' = files w.
Proof.
  intros Hfile Hfmt Hconv. unfold script.
  rewrite main_dispatch, (is_file_true _ _ Hfile), (dispatch_image_format _ Hfmt).
  unfold run_branch, pdf_to_image, bind, enter, try_except, reading. simpl.
  rewrite Hconv. simpl. by eexists.
Qed.

Lemma pdf_to_image_convert_failure_witness :
  ∃ w', script Demo.library (Demo.args "in/notes.txt" "png" "out") Demo.start = (0, w')
    ∧ stdout w' = ["Error converting PDF to image: Unable to get page count."]
    ∧ calls w' = [PdfToImage]
    ∧ files w' = files Demo.start.
Proof.
  apply (pdf_to_image_convert_failure Demo.library (Demo.args "in/notes.txt" "png" "out")
           Demo.start (Exception "Unable to get page count.")).
  - vm_compute. by eexists.
  - left. reflexivity.
  - vm_compute. reflexivity.
Defined.

(** The loop of [pdf_to_image] when the save of page [k] is the first to
    fail: the pages before it are saved, the file of page [k] holds what the
    failed save leaves, the exception leaves the loop. *)
Lemma save_pages_fail L output_dir output_format e : ∀ k images start w img,
  images !! k = Some img →
  (∀ i img' fs, (i < k)%nat → images !! i = Some img' →
     Image_save_error L img' (page_file output_dir output_format (start + i))
       (Str.upper output_format) fs = None) →
  (∀ fs, Image_save_error L img (page_file output_dir output_format (start + k))
           (Str.upper output_format) fs = Some e) →
  for_each
    (λ '(i, image),
       Image_save L image (page_file output_dir output_format i) (Str.upper output_format))
    (enumerate_from start images) w
  = (Raise e,
     set_files
       (λ fs,
          let saved := foldl (save_page output_dir output_format) fs
                         (enumerate_from start (take k images)) in
          partial_alter
            (λ _, Image_save_leaves L img (page_file output_dir output_format (start + k))
                    (Str.upper output_format) saved)
            (page_file output_dir output_format (start + k)) saved) w).
Proof.
  induction k as [|k IH]; intros [|img0 images] start w img Hk Hbefore Hfail;
    simpl in Hk; try done.
  - injection Hk as ->. simpl. unfold bind, Image_save, writing.
    rewrite Nat.add_0_r in *. rewrite Hfail. by destruct w.
  - simpl. unfold bind at 1. unfold Image_save at 1, writing.
    rewrite <- (Nat.add_0_r start) at 1.
    rewrite (Hbefore 0%nat img0) by (done || lia). simpl.
    rewrite (IH images (S start) _ img Hk).
    + replace (S start + k)%nat with (start + S k)%nat by lia. done.
    + intros i img' fs Hi Himg. replace (S start + i)%nat with (start + S i)%nat by lia.
      apply Hbefore; [lia | done].
    + intros fs. replace (S start + k)%nat with (start + S k)%nat by lia. apply Hfail.
Qed.

(** X2. No clean-up after a failed save: when the save of page [k] (counted
    from 0) is the first to raise, [pdf_to_image] still returns normally, prints
    the diagnostic with the message of that exception in one call of [print],
    leaves the pages before [k] in their files, and does not reach the pages
    after [k]: their files are as before. (The file of page [k] itself holds
    whatever the failed save leaves.) *)
Theorem pdf_to_image_partial_failure L input_file output_dir output_format w images k img e :
  convert_from_path L (files w) input_file = Ok images →
  images !! k = Some img →
  (∀ i img' fs, (i < k)%nat → images !! i = Some img' →
     Image_save_error L img' (page_file output_dir output_format i)
       (Str.upper output_format) fs = None) →
  (∀ fs, Image_save_error L img (page_file output_dir output_format k)
           (Str.upper output_format) fs = Some e) →
  ∃ w', pdf_to_image L input_file output_dir output_format w = (Ok tt, w')
    ∧ stdout w' = stdout w ++ ["Error converting PDF to image: " +:+ str_exn e]
    ∧ (∀ i img', (i < k)%nat → images !! i = Some img' →
         files w' !! page_file output_dir output_format i
         = Some (ImageFile (Str.upper output_format) img'))
    ∧ (∀ i, (k < i)%nat →
         files w' !! page_file output_dir output_format i
         = files w !! page_file output_dir output_format i).
Proof.
  intros Hconv Hk Hbefore Hfail.
  unfold pdf_to_image, bind, enter, try_except, reading. simpl.
  rewrite Hconv. unfold enumerate.
  rewrite (save_pages_fail L output_dir output_format e k images 0 _ img Hk Hbefore Hfail).
  simpl. eexists. split; [reflexivity|]. simpl. split; [done|]. split.
  - intros i img' Hi Himg.
    rewrite lookup_partial_alter_ne by (intros Heq%page_file_inj; lia).
    apply (save_pages_page output_dir output_format (take k images) 0).
    by rewrite lookup_take_lt.
  - intros i Hi.
    rewrite lookup_partial_alter_ne by (intros Heq%page_file_inj; lia).
    apply (save_pages_other output_dir output_format (take k images) 0).
    intros j Hj Heq. apply page_file_inj in Heq.
    rewrite length_take in Hj. lia.
Qed.

Lemma pdf_to_image_partial_failure_witness :
  ∃ w', pdf_to_image Faulty.library "in/scan.pdf" "out" "png" Demo.start = (Ok tt, w')
    ∧ stdout w' = ["Error converting PDF to image: No space left on device"]
    ∧ files w' !! "out/output_1.png" = Some (ImageFile "PNG" (Raster 1 1 [97%N]))
    ∧ files w' !! "out/output_2.png" = Some (ImageFile "PNG" (Raster 1 1 [98%N]))
    ∧ files w' !! "out/output_4.png" = None.
Proof.
  destruct (pdf_to_image_partial_failure Faulty.library "in/scan.pdf" "out" "png" Demo.start
              (Demo.pages_of "abc") 2 (Raster 1 1 [99%N]) (Exception "No space left on device"))
    as (w' & Hrun & Hout & Hbefore & Hafter).
  - vm_compute. reflexivity.
  - reflexivity.
  - intros [|[|i]] img' fs Hi Himg; [reflexivity | reflexivity | lia].
  - reflexivity.
  - exists w'. split; [exact Hrun|]. split; [exact Hout|].
    split; [apply (Hbefore 0%nat); [lia | reflexivity]|].
    split; [apply (Hbefore 1%nat); [lia | reflexivity]|].
    etrans; [apply (Hafter 3%nat); lia|]. vm_compute. reflexivity.
Defined.

(** ** Failures inside [image_to_image] *)

(** X3. [image_to_image] turns every failure into one diagnostic and a
    normal return. When the image cannot be opened, it prints "Error converting
    image: " followed by the message of the exception and changes no file. When
    the image opens but the save raises, it prints the same diagnostic, and no
    file other than the target of line 35 changes (the target holds whatever
    the failed save leaves). *)
Theorem image_to_image_failure L input_file format w e :
  (Image_open L (files w) input_file = Raise e →
     image_to_image L input_file format w
     = (Ok tt, add_stdout ("Error converting image: " +:+ str_exn e)
                 (add_call ImageToImage w)))
  ∧ (∀ img,
       Image_open L (files w) input_file = Ok img →
       Image_save_error L img (image_output_file input_file format)
         (Str.upper format) (files w) = Some e →
       ∃ w', image_to_image L input_file format w = (Ok tt, w')
         ∧ stdout w' = stdout w ++ ["Error converting image: " +:+ str_exn e]
         ∧ calls w' = calls w ++ [ImageToImage]
         ∧ ∀ p, p ≠ image_output_file input_file format →
                files w' !! p = files w !! p).
Proof.
  split.
  - intros Hopen.
    unfold image_to_image, bind, enter, try_except, reading. simpl. by rewrite Hopen.
  - intros img Hopen Hsave.
    unfold image_to_image, bind, enter, try_except, reading, Image_save, writing. simpl.
    rewrite Hopen. simpl. rewrite Hsave. simpl.
    eexists. split; [reflexivity|]. simpl. repeat split.
    intros p Hp. rewrite lookup_partial_alter. by case_decide.
Qed.

Lemma image_to_image_failure_witness :
  image_to_image Demo.library "in/notes.txt" "png" Demo.start
  = (Ok tt, add_stdout "Error converting image: cannot identify image file in/notes.txt"
              (add_call ImageToImage Demo.start))
  ∧ ∃ w', image_to_image Demo.library "in/photo.png" "jpg" Demo.start = (Ok tt, w')
      ∧ stdout w' = stdout Demo.start ++ ["Error converting image: JPG"]
      ∧ calls w' = calls Demo.start ++ [ImageToImage]
      ∧ ∀ p, p ≠ image_output_file "in/photo.png" "jpg" →
             files w' !! p = files Demo.start !! p.
Proof.
  split.
  - apply (image_to_image_failure Demo.library "in/notes.txt" "png" Demo.start
             (Exception "cannot identify image file in/notes.txt")).
    vm_compute. reflexivity.
  - apply (proj2 (image_to_image_failure Demo.library "in/photo.png" "jpg" Demo.start
                    (Exception "JPG")) (Raster 1 1 [7%N])).
    + vm_compute. reflexivity.
    + vm_compute. reflexivity.
Defined.

(** ** Formats that are not supported *)

Lemma dispatch_unsupported fmt :
  fmt ≠ "jpg" → fmt ≠ "png" → fmt ≠ "docx" → fmt ≠ "pdf" → dispatch fmt = BUnsupported.
Proof.
  intros Hjpg Hpng Hdocx Hpdf. unfold dispatch, str_in. simpl.
  destruct (String.eqb_spec fmt "jpg"); [done|].
  destruct (String.eqb_spec fmt "png"); [done|].
  destruct (String.eqb_spec fmt "docx"); [done|].
  by destruct (String.eqb_spec fmt "pdf").
Qed.

(** X4. With an existing input, a format whose lower-casing is none of
    [jpg], [png], [docx], [pdf] (the empty format included) makes the script
    print "Error: Unsupported output format." and nothing else: no routine is
    entered, no file changes, the exit status is 0. *)
Theorem main_unsupported L args w :
  is_Some (files w !! input args) →
  Str.lower (output_format args) ∉ ["jpg"; "png"; "docx"; "pdf"] →
  ∃ w', main L args w = (Ok tt, w')
    ∧ script L args w = (0, w')
    ∧ stdout w' = stdout w ++ ["Error: Unsupported output format."]
    ∧ calls w' = calls w
    ∧ files w' = files w.
Proof.
  intros Hfile Hfmt.
  assert (Hm : main L args w = (Ok tt, add_stdout "Error: Unsupported output format." w)).
  { apply main_unsupported_format; [done|].
    apply dispatch_unsupported; intros Heq; apply Hfmt; rewrite Heq;
      repeat first [ apply list_elem_of_here | apply list_elem_of_further ]. }
  eexists. split; [exact Hm|]. unfold script. by rewrite Hm.
Qed.

Lemma main_unsupported_witness :
  ∃ w', main Demo.library (Demo.args "in/photo.png" "GIF" "out") Demo.start = (Ok tt, w')
    ∧ script Demo.library (Demo.args "in/photo.png" "GIF" "out") Demo.start = (0, w')
    ∧ stdout w' = ["Error: Unsupported output format."]
    ∧ calls w' = []
    ∧ files w' = files Demo.start.
Proof.
  apply (main_unsupported Demo.library (Demo.args "in/photo.png" "GIF" "out") Demo.start).
  - vm_compute. by eexists.
  - vm_compute. intros H.
    repeat (apply elem_of_cons in H as [H|H]; [discriminate H|]).
    by apply elem_of_nil in H.
Defined.

(** ** The exit status *)

Lemma silent_ret {A} (a : A) : silent (ret a).
Proof. by intros w. Qed.

Lemma silent_raise {A} e : silent (@raise A e).
Proof. by intros w. Qed.

Lemma silent_enter r : silent (enter r).
Proof. by intros w. Qed.

Lemma silent_reading {A} (f : gmap string file_data → result A) : silent (reading f).
Proof. by intros w. Qed.

Lemma silent_writing err leaves path data : silent (writing err leaves path data).
Proof. intros w. unfold writing. by destruct (err (files w)). Qed.

Lemma silent_bind {A B} (m : M A) (k : A → M B) :
  silent m → (∀ a, silent (k a)) → silent (bind m k).
Proof.
  intros Hm Hk w. unfold bind. specialize (Hm w).
  destruct (m w) as [[a|e] w']; simpl in *; [|done].
  by rewrite Hk.
Qed.

Lemma silent_for_each {A} (body : A → M unit) l :
  (∀ x, silent (body x)) → silent (for_each body l).
Proof.
  intros Hb. induction l as [|x l IH]; simpl.
  - apply silent_ret.
  - apply silent_bind; [apply Hb | by intros _].
Qed.

Lemma silent_add_paragraphs L paras pdf : silent (add_paragraphs L paras pdf).
Proof.
  revert pdf. induction paras as [|para paras IH]; intros pdf; simpl.
  - apply silent_ret.
  - apply silent_bind; [|apply IH].
    unfold multi_cell. destruct (multi_cell_error L _ _); [apply silent_raise | apply silent_ret].
Qed.

(** [docx_to_pdf] never prints, whether it returns or raises. *)
Lemma silent_docx_to_pdf L input_file output_file : silent (docx_to_pdf L input_file output_file).
Proof.
  apply silent_bind; [apply silent_enter|]. intros _.
  apply silent_bind; [apply silent_reading|]. intros doc.
  apply silent_bind; [apply silent_add_paragraphs|]. intros pdf.
  apply silent_writing.
Qed.

(** After [main]: a status other than 0 is 1, and it arises in one
    situation only. *)
Lemma script_status_not_zero L args w :
  (script L args w).1 ≠ 0 →
  (script L args w).1 = 1
  ∧ is_Some (files w !! input args)
  ∧ Str.lower (output_format args) = "pdf"
  ∧ calls (script L args w).2 = calls w ++ [DocxToPdf]
  ∧ stdout (script L args w).2 = stdout w.
Proof.
  intros Hnz.
  destruct (decide (Str.lower (output_format args) = "pdf")) as [Hfmt|Hfmt].
  - revert Hnz. unfold script. rewrite main_dispatch.
    destruct (bool_decide (is_Some (files w !! input args))) eqn:Hfile; [|done].
    apply bool_decide_eq_true_1 in Hfile. rewrite Hfmt, dispatch_pdf. simpl.
    pose proof (docx_to_pdf_calls L (input args)
                  (Posixpath.join (output_dir args) "output.pdf") w) as Hcalls.
    pose proof (silent_docx_to_pdf L (input args)
                  (Posixpath.join (output_dir args) "output.pdf") w) as Hout.
    destruct (docx_to_pdf L _ _ w) as [[?|?] ?]; simpl in *; done.
  - by rewrite (script_exit_status_zero L args w Hfmt) in Hnz.
Qed.

(** X5. The exit status of the process. A command line that [parse_args]
    rejects ends the process with the status of [parse_args], before the input
    check: no routine is entered and no file changes. For a command line that
    [parse_args] accepts, the status is 0 whenever the lower-cased format is
    not [pdf], whatever the libraries do; a status other than 0 is 1 and
    arises only when the input exists, the lower-cased format is [pdf], the
    DOCX-to-PDF routine was entered and the script printed nothing. *)
Theorem process_exit_status L parse_args argv w :
  (∀ status printed,
     parse_args parser argv = SystemExit status printed →
     (process L parse_args argv w).1 = status
     ∧ calls (process L parse_args argv w).2 = calls w
     ∧ files (process L parse_args argv w).2 = files w)
  ∧ (∀ args,
       parse_args parser argv = Parsed args →
       (Str.lower (output_format args) ≠ "pdf" → (process L parse_args argv w).1 = 0)
       ∧ ((process L parse_args argv w).1 ≠ 0 →
            (process L parse_args argv w).1 = 1
            ∧ is_Some (files w !! input args)
            ∧ Str.lower (output_format args) = "pdf"
            ∧ calls (process L parse_args argv w).2 = calls w ++ [DocxToPdf]
            ∧ stdout (process L parse_args argv w).2 = stdout w)).
Proof.
  split.
  - intros status printed Hexit. unfold process. by rewrite Hexit.
  - intros args Hparsed. unfold process. rewrite Hparsed. split.
    + apply script_exit_status_zero.
    + apply script_status_not_zero.
Qed.

Lemma process_exit_status_witness :
  (process Demo.library DemoArgs.parse_args ["--input"; "in/notes.txt"] Demo.start).1 = 2
  ∧ (process Demo.library DemoArgs.parse_args
       ["--input"; "in/notes.txt"; "--output_format"; "gif"] Demo.start).1 = 0
  ∧ (process Demo.library DemoArgs.parse_args
       ["--input"; "in/notes.txt"; "--output_format"; "PDF"] Demo.start).1 = 1
  ∧ stdout (process Demo.library DemoArgs.parse_args
              ["--input"; "in/notes.txt"; "--output_format"; "PDF"] Demo.start).2 = [].
Proof.
  split; [|split; [|split]].
  - apply (proj1 (process_exit_status Demo.library DemoArgs.parse_args
                    ["--input"; "in/notes.txt"] Demo.start) 2 []).
    reflexivity.
  - apply (proj2 (process_exit_status Demo.library DemoArgs.parse_args
                    ["--input"; "in/notes.txt"; "--output_format"; "gif"] Demo.start)
             (Demo.args "in/notes.txt" "gif" ".")); [reflexivity | discriminate].
  - apply (proj2 (process_exit_status Demo.library DemoArgs.parse_args
                    ["--input"; "in/notes.txt"; "--output_format"; "PDF"] Demo.start)
             (Demo.args "in/notes.txt" "PDF" ".")); [reflexivity | by vm_compute].
  - apply (proj2 (process_exit_status Demo.library DemoArgs.parse_args
                    ["--input"; "in/notes.txt"; "--output_format"; "PDF"] Demo.start)
             (Demo.args "in/notes.txt" "PDF" ".")); [reflexivity | by vm_compute].
Defined.

(** ** Failures inside [docx_to_pdf] *)

(** The paragraph loop when a text cell fails: the exception leaves the loop
    at the first paragraph that cannot be laid out. *)
Lemma add_paragraphs_fail L e para ps2 : ∀ ps1 pdf w,
  (∀ pdf' p, p ∈ ps1 → multi_cell_error L pdf' (text p) = None) →
  (∀ pdf', multi_cell_error L pdf' (text para) = Some e) →
  add_paragraphs L (ps1 ++ para :: ps2) pdf w = (Raise e, w).
Proof.
  induction ps1 as [|p ps1 IH]; intros pdf w Hbefore Hfail; simpl.
  - unfold bind, multi_cell. by rewrite Hfail.
  - unfold bind at 1. unfold multi_cell at 1.
    rewrite (Hbefore _ p) by apply list_elem_of_here. simpl.
    apply IH; [|done]. intros pdf' p' Hin. apply Hbefore. by apply list_elem_of_further.
Qed.

(** X6. When the text cell of some paragraph cannot be laid out (the cells
    of the paragraphs before it can), the exception leaves [docx_to_pdf] and
    [main]: [output] is never called, so no file is written although earlier
    paragraphs were laid out, nothing is printed, and the exit status is 1. *)
Theorem docx_to_pdf_cell_failure L args w doc ps1 para ps2 e :
  is_Some (files w !! input args) →
  Str.lower (output_format args) = "pdf" →
  Document L (files w) (input args) = Ok doc →
  paragraphs doc = ps1 ++ para :: ps2 →
  (∀ pdf p, p ∈ ps1 → multi_cell_error L pdf (text p) = None) →
  (∀ pdf, multi_cell_error L pdf (text para) = Some e) →
  main L args w = (Raise e, add_call DocxToPdf w)
  ∧ script L args w = (1, add_call DocxToPdf w).
Proof.
  intros Hfile Hfmt Hdoc Hparas Hbefore Hfail.
  assert (Hm : main L args w = (Raise e, add_call DocxToPdf w)).
  { rewrite main_dispatch, (is_file_true _ _ Hfile), Hfmt, dispatch_pdf.
    unfold run_branch, docx_to_pdf, bind, enter, reading. simpl. rewrite Hdoc, Hparas.
    by rewrite (add_paragraphs_fail L e para ps2 ps1 _ _ Hbefore Hfail). }
  split; [exact Hm|]. unfold script. by rewrite Hm.
Qed.

Lemma docx_to_pdf_cell_failure_witness :
  main Faulty.library (Demo.args "in/letter.docx" "pdf" "out") Demo.start
  = (Raise (Exception "cannot encode the text"), add_call DocxToPdf Demo.start)
  ∧ script Faulty.library (Demo.args "in/letter.docx" "pdf" "out") Demo.start
    = (1, add_call DocxToPdf Demo.start).
Proof.
  apply (docx_to_pdf_cell_failure Faulty.library (Demo.args "in/letter.docx" "pdf" "out")
           Demo.start {| paragraphs := [ {| text := "hello" |}; {| text := "world" |} ] |}
           [ {| text := "hello" |} ] {| text := "world" |} []).
  - vm_compute. by eexists.
  - reflexivity.
  - vm_compute. reflexivity.
  - reflexivity.
  - intros pdf p ->%list_elem_of_singleton. reflexivity.
  - reflexivity.
Defined.

(** What the paragraph loop keeps when it returns: the world, the page-break
    settings, the cells it found, followed by one cell per paragraph; pages
    are only added. *)
Lemma add_paragraphs_inv L paras : ∀ pdf w pdf' w',
  add_paragraphs L paras pdf w = (Ok pdf', w') →
  w' = w
  ∧ auto_page_break pdf' = auto_page_break pdf
  ∧ b_margin pdf' = b_margin pdf
  ∧ (page pdf ≤ page pdf')%nat
  ∧ cells pdf' =
      cells pdf ++
      ((λ para, {| cell_family := "Arial"; cell_size := 12;
                   cell_w := 0; cell_h := 10; cell_txt := text para |}) <$> paras).
Proof.
  induction paras as [|para paras IH]; intros pdf w pdf' w'; simpl.
  - intros [= -> ->]. by rewrite app_nil_r.
  - unfold bind at 1. unfold multi_cell at 1.
    destruct (multi_cell_error L _ (text para)); [done|]. simpl.
    intros (-> & Hauto & Hmargin & Hpage & Hcells)%IH. simpl in *.
    repeat split; try done; [lia|]. by rewrite Hcells, <- app_assoc.
Qed.

(** X7. [docx_to_pdf] returns normally only after writing: whenever it
    returns, the document library had read the input, [output_file] holds the
    PDF and no other file changed; that PDF has automatic page breaks with a
    margin of 15, at least one page, and one cell per paragraph, in document
    order, of width 0 and height 10, in Arial 12. *)
Theorem docx_to_pdf_returns_after_writing L input_file output_file w w' :
  docx_to_pdf L input_file output_file w = (Ok tt, w') →
  ∃ doc pdf,
    Document L (files w) input_file = Ok doc
    ∧ files w' = <[output_file := PdfFile pdf]> (files w)
    ∧ stdout w' = stdout w
    ∧ auto_page_break pdf = true
    ∧ b_margin pdf = 15
    ∧ (1 ≤ page pdf)%nat
    ∧ cells pdf =
        (λ para, {| cell_family := "Arial"; cell_size := 12;
                    cell_w := 0; cell_h := 10; cell_txt := text para |}) <$> paragraphs doc.
Proof.
  unfold docx_to_pdf, bind, enter, reading. simpl.
  destruct (Document L (files w) input_file) as [doc|e]; [|done].
  destruct (add_paragraphs L (paragraphs doc) _ _) as [[pdf|e] w1] eqn:Hloop; [|done].
  apply add_paragraphs_inv in Hloop as (-> & Hauto & Hmargin & Hpage & Hcells).
  unfold output, writing. simpl.
  destruct (output_error L pdf output_file (files w)); [done|].
  intros [= <-]. exists doc, pdf. simpl in *. repeat split; done.
Qed.

Lemma docx_to_pdf_returns_after_writing_witness :
  ∃ doc pdf,
    Document Demo.library (files Demo.start) "in/letter.docx" = Ok doc
    ∧ files (docx_to_pdf Demo.library "in/letter.docx" "out/output.pdf" Demo.start).2
      = <["out/output.pdf" := PdfFile pdf]> (files Demo.start)
    ∧ stdout (docx_to_pdf Demo.library "in/letter.docx" "out/output.pdf" Demo.start).2
      = stdout Demo.start
    ∧ auto_page_break pdf = true
    ∧ b_margin pdf = 15
    ∧ (1 ≤ page pdf)%nat
    ∧ cells pdf =
        (λ para, {| cell_family := "Arial"; cell_size := 12;
                    cell_w := 0; cell_h := 10; cell_txt := text para |}) <$> paragraphs doc.
Proof.
  apply (docx_to_pdf_returns_after_writing Demo.library "in/letter.docx" "out/output.pdf"
           Demo.start).
  vm_compute. reflexivity.
Defined.

(** ** The letter case of the format *)

Lemma lower_char_lower c : Str.lower_char (Str.lower_char c) = Str.lower_char c.
Proof. by destruct c as [[] [] [] [] [] [] [] []]. Qed.

Lemma lower_char_upper c : Str.lower_char (Str.upper_char c) = Str.lower_char c.
Proof. by destruct c as [[] [] [] [] [] [] [] []]. Qed.

Lemma lower_lower s : Str.lower (Str.lower s) = Str.lower s.
Proof.
  unfold Str.lower. induction s as [|c s IH]; simpl; [done|].
  by rewrite lower_char_lower, IH.
Qed.

Lemma lower_upper s : Str.lower (Str.upper s) = Str.lower s.
Proof.
  unfold Str.lower, Str.upper. induction s as [|c s IH]; simpl; [done|].
  by rewrite lower_char_upper, IH.
Qed.

(** X8. The letter case of [--output_format] does not matter: the format
    as typed, its lower-casing and its upper-casing give the same run of
    [main], in every world and with every library. *)
Theorem main_case_insensitive L args w :
  main L (with_format (Str.lower (output_format args)) args) w = main L args w
  ∧ main L (with_format (Str.upper (output_format args)) args) w = main L args w.
Proof.
  rewrite !main_dispatch. unfold run_branch, with_format. simpl.
  by rewrite lower_lower, lower_upper.
Qed.

(** ** How often the script prints *)

Lemma silent_at_most_one {A} (m : M A) : silent m → prints_at_most_one m.
Proof. intros Hm w. exists []. rewrite Hm, app_nil_r. split; [done | simpl; lia]. Qed.

Lemma print_at_most_one line : prints_at_most_one (print line).
Proof. intros w. exists [line]. split; [done | simpl; lia]. Qed.

(** A silent body with a handler that prints once. *)
Lemma try_except_at_most_one {A} (body : M A) handler :
  silent body → (∀ e, prints_at_most_one (handler e)) →
  prints_at_most_one (try_except body handler).
Proof.
  intros Hb Hh w. unfold try_except. specialize (Hb w).
  destruct (body w) as [[a|e] w1]; simpl in *.
  - exists []. rewrite Hb, app_nil_r. split; [done | simpl; lia].
  - destruct (Hh e w1) as (out & Hout & Hlen). exists out. by rewrite Hout, Hb.
Qed.

Lemma enter_at_most_one {A} r (m : M A) :
  prints_at_most_one m → prints_at_most_one (bind (enter r) (λ _, m)).
Proof. intros Hm w. apply (Hm (add_call r w)). Qed.

Lemma pdf_to_image_at_most_one L i d f : prints_at_most_one (pdf_to_image L i d f).
Proof.
  apply enter_at_most_one, try_except_at_most_one.
  - apply silent_bind; [apply silent_reading|]. intros images.
    apply silent_for_each. intros [k img]. apply silent_writing.
  - intros e. apply print_at_most_one.
Qed.

Lemma image_to_image_at_most_one L i f : prints_at_most_one (image_to_image L i f).
Proof.
  apply enter_at_most_one, try_except_at_most_one.
  - apply silent_bind; [apply silent_reading|]. intros img. apply silent_writing.
  - intros e. apply print_at_most_one.
Qed.

(** X9. One run of [main] calls [print] at most once, whatever the libraries
    do: [stdout] grows by at most one entry, placed after what was already
    printed. In particular a failure inside the page loop is reported by one
    message, not by one message per page. (The message is as many lines of the
    terminal as the text of the exception has.) *)
Theorem main_prints_at_most_once L args w :
  ∃ out, stdout (main L args w).2 = stdout w ++ out ∧ (length out ≤ 1)%nat.
Proof.
  rewrite main_dispatch.
  destruct (bool_decide (is_Some (files w !! input args))); [|apply print_at_most_one].
  destruct (dispatch (Str.lower (output_format args))); unfold run_branch; cbv beta iota zeta.
  - apply pdf_to_image_at_most_one.
  - apply (enter_at_most_one PdfToDocx _ (print_at_most_one _) w).
  - apply silent_at_most_one, silent_docx_to_pdf.
  - apply image_to_image_at_most_one.
  - apply print_at_most_one.
Qed.

(** ** The output path of [image_to_image], split again *)

Lemma rfind_append_char c r t :
  Str.contains c t = false → Str.rfind c (r +:+ String c t) = Z.of_nat (String.length r).
Proof.
  intros Ht. induction r as [|a r IH].
  - rewrite append_nil_l. simpl. by rewrite (rfind_absent _ _ Ht), Ascii.eqb_refl.
  - rewrite append_cons. simpl Str.rfind. rewrite IH.
    destruct (0 <=? Z.of_nat (String.length r)) eqn:Hle.
    + simpl String.length. lia.
    + apply Z.leb_gt in Hle. lia.
Qed.

Lemma take_length r : Str.take (String.length r) r = r.
Proof. induction r as [|a r IH]; simpl; [done|]. by rewrite IH. Qed.

Lemma drop_length_append r t : Str.drop (String.length r) (r +:+ t) = t.
Proof. induction r as [|a r IH]; [done|]. by rewrite append_cons. Qed.

Lemma drop_append r t : ∀ n, (n ≤ String.length r)%nat →
  Str.drop n (r +:+ t) = Str.drop n r +:+ t.
Proof.
  induction r as [|a r IH]; intros [|n] Hn; simpl in *; try done; try lia.
  apply IH. lia.
Qed.

Lemma drop_cons_inv q : ∀ a x d, Str.drop a q = String x d → Str.drop (S a) q = d.
Proof.
  induction q as [|y q IH]; intros [|a] x d Hd; simpl in *; try done.
  - by injection Hd as _ ->.
  - by apply (IH a x).
Qed.

Lemma length_drop q : ∀ a, String.length (Str.drop a q) = (String.length q - a)%nat.
Proof. induction q as [|y q IH]; intros [|a]; simpl; try done. Qed.

(** The loop of [splitext], inside the string: it finds a character that is
    no dot exactly when the slice is not made of dots only. *)
Lemma has_non_dot_spec q : ∀ n a, (a + n ≤ String.length q)%nat →
  Posixpath.has_non_dot q a n
  = negb (Str.all_chars Posixpath.extsep (Str.take n (Str.drop a q))).
Proof.
  induction n as [|n IH]; intros a Hlen; simpl; [done|].
  unfold Str.char_at.
  destruct (Str.drop a q) as [|x d] eqn:Hd.
  - apply (f_equal String.length) in Hd. rewrite length_drop in Hd. simpl in Hd. lia.
  - simpl. rewrite (IH (S a)) by lia. rewrite (drop_cons_inv q a x d Hd).
    destruct (Ascii.eqb_spec x Posixpath.extsep) as [->|Hx].
    + by rewrite bool_decide_eq_false_2 by (by intros H).
    + rewrite bool_decide_eq_true_2; [done|]. intros [= H]. done.
Qed.

Lemma take_take_drop q : ∀ a n, (a ≤ n)%nat →
  Str.drop a (Str.take n q) = Str.take (n - a) (Str.drop a q).
Proof.
  induction q as [|y q IH]; intros [|a] [|n] Hn; simpl; try done; try lia.
  - by destruct (n - a)%nat.
  - apply IH. lia.
Qed.

Lemma all_chars_append c r t :
  Str.all_chars c (r +:+ t) = (Str.all_chars c r && Str.all_chars c t)%bool.
Proof.
  induction r as [|a r IH]; [done|]. rewrite append_cons. simpl.
  rewrite IH. by destruct (Ascii.eqb a c).
Qed.

(** [splitext] keeps the separators in the root. *)
Lemma splitext_root_rfind_sep p :
  Str.rfind Posixpath.sep (fst (Posixpath.splitext p)) = Str.rfind Posixpath.sep p.
Proof.
  rewrite <- (splitext_append p) at 2.
  by rewrite (rfind_append _ _ _ (splitext_ext_no_sep p)).
Qed.

(** A file name that is not made of dots only keeps such a base name when
    its extension is cut off. *)
Lemma splitext_root_basename p :
  Str.all_chars Posixpath.extsep (Posixpath.basename p) = false →
  Str.all_chars Posixpath.extsep (Posixpath.basename (fst (Posixpath.splitext p))) = false.
Proof.
  intros Hp. unfold Posixpath.basename. rewrite splitext_root_rfind_sep.
  unfold Posixpath.splitext.
  destruct (Str.rfind Posixpath.sep p <? Str.rfind Posixpath.extsep p) eqn:Hlt; simpl; [|done].
  destruct (Posixpath.has_non_dot _ _ _) eqn:Hnd; simpl; [|done].
  apply Z.ltb_lt in Hlt.
  pose proof (rfind_bounds Posixpath.sep p) as Hs.
  pose proof (rfind_bounds Posixpath.extsep p) as Hd.
  rewrite has_non_dot_spec in Hnd by lia.
  apply negb_true_iff in Hnd.
  rewrite take_take_drop by lia.
  replace (Z.to_nat (Str.rfind Posixpath.extsep p) - Z.to_nat (Str.rfind Posixpath.sep p + 1))%nat
    with (Z.to_nat (Str.rfind Posixpath.extsep p - (Str.rfind Posixpath.sep p + 1))) by lia.
  done.
Qed.

Lemma splitext_with_extension r format :
  Str.all_chars Posixpath.extsep (Posixpath.basename r) = false →
  Str.contains Posixpath.sep format = false →
  Str.contains Posixpath.extsep format = false →
  Posixpath.splitext (r +:+ "." +:+ format) = (r, "." +:+ format).
Proof.
  intros Hbase Hsep Hdot. unfold Posixpath.splitext.
  assert (Hs : Str.rfind Posixpath.sep (r +:+ "." +:+ format) = Str.rfind Posixpath.sep r).
  { apply rfind_append. simpl. exact Hsep. }
  assert (Hd : Str.rfind Posixpath.extsep (r +:+ "." +:+ format) = Z.of_nat (String.length r)).
  { by apply (rfind_append_char Posixpath.extsep r format). }
  rewrite Hs, Hd.
  pose proof (rfind_bounds Posixpath.sep r) as Hb.
  rewrite (proj2 (Z.ltb_lt _ _)) by lia.
  rewrite has_non_dot_spec by (rewrite length_append; lia).
  rewrite drop_append by lia.
  replace (Z.to_nat (Z.of_nat (String.length r) - (Str.rfind Posixpath.sep r + 1)))
    with (String.length (Str.drop (Z.to_nat (Str.rfind Posixpath.sep r + 1)) r))
    by (rewrite length_drop; lia).
  rewrite take_append, take_length by done.
  unfold Posixpath.basename in Hbase. rewrite Hbase. simpl.
  rewrite Nat2Z.id. by rewrite take_append, take_length, drop_length_append.
Qed.

(** X11. For an input whose file name is not made of dots only, and a
    format without a dot or a separator, splitting the output path of
    [image_to_image] gives back the root of the input and the dot followed by
    the format; hence converting the output again to the same format aims at
    the same path. *)
Theorem image_output_file_splitext input_file format :
  Str.all_chars Posixpath.extsep (Posixpath.basename input_file) = false →
  Str.contains Posixpath.sep format = false →
  Str.contains Posixpath.extsep format = false →
  Posixpath.splitext (image_output_file input_file format)
  = (fst (Posixpath.splitext input_file), "." +:+ format)
  ∧ image_output_file (image_output_file input_file format) format
    = image_output_file input_file format.
Proof.
  intros Hbase Hsep Hdot.
  assert (Hsplit : Posixpath.splitext (image_output_file input_file format)
                   = (fst (Posixpath.splitext input_file), "." +:+ format)).
  { apply splitext_with_extension; [by apply splitext_root_basename | done | done]. }
  split; [exact Hsplit|].
  unfold image_output_file at 1. by rewrite Hsplit.
Qed.

Lemma image_output_file_splitext_witness :
  Posixpath.splitext (image_output_file "in/holiday.pic.bmp" "png") = ("in/holiday.pic", ".png")
  ∧ image_output_file (image_output_file "in/holiday.pic.bmp" "png") "png" = "in/holiday.pic.png".
Proof.
  apply (image_output_file_splitext "in/holiday.pic.bmp" "png"); reflexivity.
Defined.

(** A file name made of dots only gets a longer name at every conversion. *)
Example image_output_file_dots :
  image_output_file "..." "png" = "....png"
  ∧ image_output_file "....png" "png" = "....png.png".
Proof. split; reflexivity. Qed.

(** ** A trailing separator on the output directory *)

Lemma endswith_append_sep d : Str.endswith Posixpath.sep (d +:+ "/") = true.
Proof.
  induction d as [|a d IH]; [done|]. rewrite append_cons.
  destruct d as [|b d]; [done|]. rewrite append_cons in *. exact IH.
Qed.

Lemma join_trailing_sep d b :
  d ≠ "" → Str.endswith Posixpath.sep d = false → Str.startswith Posixpath.sep b = false →
  Posixpath.join (d +:+ "/") b = Posixpath.join d b.
Proof.
  intros Hd Hend Hb. unfold Posixpath.join. rewrite Hb, Hend, endswith_append_sep.
  rewrite (bool_decide_eq_false_2 (d = "")) by done.
  rewrite orb_true_r. simpl. by rewrite append_assoc.
Qed.

Lemma for_each_ext {A} (f g : A → M unit) l :
  (∀ x w, f x w = g x w) → ∀ w, for_each f l w = for_each g l w.
Proof.
  intros Hfg. induction l as [|x l IH]; intros w; simpl; [done|].
  unfold bind. rewrite Hfg. by destruct (g x w) as [[[]|e] w1].
Qed.

(** X12. Writing the output directory with or without a trailing
    separator makes no difference: for a directory name that is not empty and
    does not already end with a separator, [main] with [<dir>/] is the same
    run as [main] with [<dir>]. *)
Theorem main_output_dir_trailing_sep L args w :
  output_dir args ≠ "" →
  Str.endswith Posixpath.sep (output_dir args) = false →
  main L (with_output_dir (output_dir args +:+ "/") args) w = main L args w.
Proof.
  intros Hd Hend. rewrite !main_dispatch. unfold with_output_dir. simpl.
  destruct (bool_decide (is_Some (files w !! input args))); [|done].
  destruct (dispatch (Str.lower (output_format args))); simpl; try done.
  - unfold pdf_to_image, bind, enter, try_except, reading. simpl.
    destruct (convert_from_path L (files w) (input args)) as [images|e]; [|done].
    rewrite (for_each_ext _
               (λ '(i, image),
                  Image_save L image
                    (page_file (output_dir args) (Str.lower (output_format args)) i)
                    (Str.upper (Str.lower (output_format args))))); [done|].
    intros [i img] w1. unfold page_file. by rewrite join_trailing_sep.
  - by rewrite join_trailing_sep.
Qed.

Lemma main_output_dir_trailing_sep_witness :
  main Demo.library (Demo.args "in/scan.pdf" "png" ("out" +:+ "/")) Demo.start
  = main Demo.library (Demo.args "in/scan.pdf" "png" "out") Demo.start.
Proof.
  apply (main_output_dir_trailing_sep Demo.library (Demo.args "in/scan.pdf" "png" "out")
           Demo.start); [discriminate | reflexivity].
Defined.
